(** * Verification of the publisher-verification resolver of tuxmate

    Shallow embedding of [src/lib/verification.ts], [src/lib/nixUnfree.ts],
    [src/lib/scripts/nix.ts] and [src/hooks/useVerification.ts].

    The asynchronous functions of the source are embedded in a small
    resumption monad [Async]: a computation is a tree whose nodes read or
    update the module-level state, or suspend on a network exchange
    ([Fetch], the only place where the source awaits the outside world).
    [run] plays a computation alone against a network oracle; [start] plays
    it up to its first suspension, which is what is needed to interleave two
    calls that are in flight together. *)

From Stdlib Require Import ZArith QArith List String Ascii Bool Lia.
From stdpp Require Import gmap strings list.

Local Open Scope string_scope.
Local Open Scope Z_scope.
Local Open Scope list_scope.

(** ** Values received from the network *)

(** A value produced by [response.json()], seen from JavaScript. Numbers are
    rationals: every finite double is one. *)
#[local] Unset Elimination Schemes.
Inductive JSValue : Type :=
| JUndefined
| JNull
| JBool (b : bool)
| JNum (q : Q)
| JStr (s : string)
| JArr (items : list JSValue)
| JObj (fields : list (string * JSValue)).
#[local] Set Elimination Schemes.

Inductive Error : Type :=
| TypeError
| SyntaxError
| NetworkError
| TimeoutError
| URIError.

(** The two endpoints of the source.
    [FlathubVerified page per_page] is
    [https://flathub.org/api/v2/collection/verified?page=..&per_page=..];
    [SnapInfo name] is [https://api.snapcraft.io/v2/snaps/info/] followed by
    [encodeURIComponent(name)]: the escaping is injective, so the name
    identifies the URL. *)
Inductive Endpoint : Type :=
| FlathubVerified (page : Z) (per_page : Z)
| SnapInfo (name : string).

Record Request : Type := {
  endpoint : Endpoint;
  headers : list (string * string);
  timeout : Z
}.

(** [ok] is derived from the status as the Fetch standard does. *)
Record Response : Type := {
  status : Z;
  body : option JSValue          (* [None]: [response.json()] rejects *)
}.

Definition ok (r : Response) : bool := (200 <=? status r) && (status r <=? 299).

Inductive FetchResult : Type :=
| Rejected (e : Error)           (* transport failure or timeout *)
| Responded (r : Response).

(** ** State *)

(** React state of one mounted [useVerification] instance. *)
Record HookState : Type := {
  isLoading : bool;
  hasError : bool;
  flathubLoaded : bool;
  snapLoaded : bool;
  fetchedRef : bool
}.

Inductive ConsoleLine : Type :=
| ConsoleWarn (msg : string)
| ConsoleError (msg : string).

(** A [Set] object. It is declared [Set<string>], but [add] is applied to
    whatever the payload holds: the members that are strings are kept as a
    set, the other members in the order of their insertion. *)
Record JsSet : Type := {
  strings : gset string;
  others : list JSValue
}.

Definition emptySet : JsSet := {| strings := ∅; others := [] |}.

(** Set objects live in [heap] and are named by their index, so that the
    module variable [flathubVerifiedCache] and the value returned to the
    caller alias the same object, as in the source. *)
Definition SetRef := nat.

Record World : Type := {
  flathubVerifiedCache : option SetRef;
  snapVerifiedCache : gmap string bool;
  heap : list JsSet;
  hook : HookState;
  requests : list Request;         (* every request issued so far, in order *)
  console : list ConsoleLine;
  batches : list (list string)     (* argument of every [Promise.all] so far *)
}.

Definition initialHook : HookState :=
  {| isLoading := true; hasError := false; flathubLoaded := false;
     snapLoaded := false; fetchedRef := false |}.

Definition initialWorld : World :=
  {| flathubVerifiedCache := None; snapVerifiedCache := ∅; heap := [];
     hook := initialHook; requests := []; console := []; batches := [] |}.

Definition with_flathubVerifiedCache (c : option SetRef) (w : World) : World :=
  {| flathubVerifiedCache := c; snapVerifiedCache := snapVerifiedCache w;
     heap := heap w; hook := hook w; requests := requests w;
     console := console w; batches := batches w |}.

Definition with_snapVerifiedCache (c : gmap string bool) (w : World) : World :=
  {| flathubVerifiedCache := flathubVerifiedCache w; snapVerifiedCache := c;
     heap := heap w; hook := hook w; requests := requests w;
     console := console w; batches := batches w |}.

Definition with_heap (h : list JsSet) (w : World) : World :=
  {| flathubVerifiedCache := flathubVerifiedCache w;
     snapVerifiedCache := snapVerifiedCache w;
     heap := h; hook := hook w; requests := requests w;
     console := console w; batches := batches w |}.

Definition with_hook (h : HookState) (w : World) : World :=
  {| flathubVerifiedCache := flathubVerifiedCache w;
     snapVerifiedCache := snapVerifiedCache w;
     heap := heap w; hook := h; requests := requests w;
     console := console w; batches := batches w |}.

Definition with_requests (r : list Request) (w : World) : World :=
  {| flathubVerifiedCache := flathubVerifiedCache w;
     snapVerifiedCache := snapVerifiedCache w;
     heap := heap w; hook := hook w; requests := r;
     console := console w; batches := batches w |}.

Definition with_console (c : list ConsoleLine) (w : World) : World :=
  {| flathubVerifiedCache := flathubVerifiedCache w;
     snapVerifiedCache := snapVerifiedCache w;
     heap := heap w; hook := hook w; requests := requests w;
     console := c; batches := batches w |}.

Definition with_batches (b : list (list string)) (w : World) : World :=
  {| flathubVerifiedCache := flathubVerifiedCache w;
     snapVerifiedCache := snapVerifiedCache w;
     heap := heap w; hook := hook w; requests := requests w;
     console := console w; batches := b |}.

(** ** The resumption monad *)

Inductive Async (A : Type) : Type :=
| Ret (a : A)
| Throw (e : Error)
| OutOfFuel                                   (* a loop that was cut short *)
| Read (k : World -> Async A)
| Update (f : World -> World) (k : Async A)
| Fetch (req : Request) (k : FetchResult -> Async A).

Arguments Ret {A} a.
Arguments Throw {A} e.
Arguments OutOfFuel {A}.
Arguments Read {A} k.
Arguments Update {A} f k.
Arguments Fetch {A} req k.

Fixpoint bind {A B : Type} (m : Async A) (f : A -> Async B) : Async B :=
  match m with
  | Ret a => f a
  | Throw e => Throw e
  | OutOfFuel => OutOfFuel
  | Read k => Read (fun w => bind (k w) f)
  | Update g k => Update g (bind k f)
  | Fetch req k => Fetch req (fun r => bind (k r) f)
  end.

Notation "x <- m ;; k" := (bind m (fun x => k))
  (at level 100, m at next level, k at level 200, right associativity).
Notation "m ;;; k" := (bind m (fun _ => k))
  (at level 100, k at level 200, right associativity).

(** [try { body } catch (error) { handler error }] *)
Fixpoint try_catch {A : Type} (body : Async A) (handler : Error -> Async A) : Async A :=
  match body with
  | Ret a => Ret a
  | Throw e => handler e
  | OutOfFuel => OutOfFuel
  | Read k => Read (fun w => try_catch (k w) handler)
  | Update g k => Update g (try_catch k handler)
  | Fetch req k => Fetch req (fun r => try_catch (k r) handler)
  end.

(** [try { body } finally { final }] *)
Fixpoint try_finally {A : Type} (body : Async A) (final : Async unit) : Async A :=
  match body with
  | Ret a => final ;;; Ret a
  | Throw e => final ;;; Throw e
  | OutOfFuel => OutOfFuel
  | Read k => Read (fun w => try_finally (k w) final)
  | Update g k => Update g (try_finally k final)
  | Fetch req k => Fetch req (fun r => try_finally (k r) final)
  end.

Inductive Outcome (A : Type) : Type :=
| Returned (a : A)
| Raised (e : Error)
| Unfinished.

Arguments Returned {A} a.
Arguments Raised {A} e.
Arguments Unfinished {A}.

(** The network answers a request knowing everything that was asked before. *)
Definition Network := list Request -> Request -> FetchResult.

Definition log_request (req : Request) (w : World) : World :=
  with_requests (requests w ++ [req]) w.

(** A call that runs alone, from its start to its completion. *)
Fixpoint run {A : Type} (net : Network) (m : Async A) (w : World) : Outcome A * World :=
  match m with
  | Ret a => (Returned a, w)
  | Throw e => (Raised e, w)
  | OutOfFuel => (Unfinished, w)
  | Read k => run net (k w) w
  | Update f k => run net k (f w)
  | Fetch req k => run net (k (net (requests w) req)) (log_request req w)
  end.

(** A call played up to its first suspension: either it has settled, or it
    has issued a request and waits for the answer. *)
Inductive Suspended (A : Type) : Type :=
| Settled (o : Outcome A)
| Pending (req : Request) (k : FetchResult -> Async A).

Arguments Settled {A} o.
Arguments Pending {A} req k.

Fixpoint start {A : Type} (m : Async A) (w : World) : Suspended A * World :=
  match m with
  | Ret a => (Settled (Returned a), w)
  | Throw e => (Settled (Raised e), w)
  | OutOfFuel => (Settled Unfinished, w)
  | Read k => start (k w) w
  | Update f k => start k (f w)
  | Fetch req k => (Pending req k, log_request req w)
  end.


(** ** Primitive effects *)

Definition read : Async World := Read Ret.

Definition update (f : World -> World) : Async unit := Update f (Ret tt).

(** [await fetch(url, options)]: the request is issued, the caller is
    suspended, and the promise rejects or yields a response. *)
Definition fetch (req : Request) : Async Response :=
  Fetch req (fun answer =>
    match answer with
    | Rejected e => Throw e
    | Responded r => Ret r
    end).

(** [await response.json()] *)
Definition json (r : Response) : Async JSValue :=
  match body r with
  | Some v => Ret v
  | None => Throw SyntaxError
  end.

Definition console_warn (msg : string) : Async unit :=
  update (fun w => with_console (console w ++ [ConsoleWarn msg]) w).

Definition console_error (msg : string) : Async unit :=
  update (fun w => with_console (console w ++ [ConsoleError msg]) w).

(** ** The fragment of JavaScript the source applies to payloads *)

Definition field (p : string) (fields : list (string * JSValue)) : JSValue :=
  match find (fun kv => String.eqb (fst kv) p) fields with
  | Some kv => snd kv
  | None => JUndefined
  end.

(** [v.p], for the property names of the source ([hits], [totalPages],
    [app_id], [verification_verified], [snap], [publisher], [validation]),
    none of which is defined on a built-in prototype. *)
Definition get_prop (v : JSValue) (p : string) : Async JSValue :=
  match v with
  | JUndefined | JNull => Throw TypeError
  | JObj fields => Ret (field p fields)
  | _ => Ret JUndefined
  end.

(** [v?.p] *)
Definition opt_chain (v : JSValue) (p : string) : Async JSValue :=
  match v with
  | JUndefined | JNull => Ret JUndefined
  | _ => get_prop v p
  end.

Definition truthy (v : JSValue) : bool :=
  match v with
  | JUndefined | JNull => false
  | JBool b => b
  | JNum q => negb (Qeq_bool q 0)
  | JStr s => negb (String.eqb s "")
  | JArr _ | JObj _ => true
  end.

(** [v === s] for a string literal [s] *)
Definition strict_eq_string (v : JSValue) (s : string) : bool :=
  match v with
  | JStr x => String.eqb x s
  | _ => false
  end.

(** The values [for (const x of v)] goes through. A string is iterated
    character by character; anything but an array or a string is not
    iterable. *)
Definition iterate (v : JSValue) : Async (list JSValue) :=
  match v with
  | JArr items => Ret items
  | JStr s => Ret (map (fun c => JStr (String c EmptyString)) (list_ascii_of_string s))
  | _ => Throw TypeError
  end.

(** [snapName.split(' ')[0]]: what precedes the first space. *)
Fixpoint cleanNameOf (snapName : string) : string :=
  match snapName with
  | EmptyString => EmptyString
  | String c rest =>
      if Ascii.eqb c " "%char then EmptyString else String c (cleanNameOf rest)
  end.

(** [s.includes(t)] *)
Fixpoint includes (s t : string) : bool :=
  String.prefix t s ||
  match s with
  | EmptyString => false
  | String _ rest => includes rest t
  end.

(** ** Set objects *)

(** [new Set<string>()] *)
Definition newSet : Async SetRef :=
  Read (fun w => Update (fun w' => with_heap (heap w' ++ [emptySet]) w') (Ret (length (heap w)))).

(** The comparison of [Set] (SameValueZero) between a value that is not a
    string and a member. An array or an object that comes out of
    [response.json()] is a fresh object: it is the same as no member. *)
Definition sameValueZero (v member : JSValue) : bool :=
  match v, member with
  | JUndefined, JUndefined => true
  | JNull, JNull => true
  | JBool a, JBool b => Bool.eqb a b
  | JNum a, JNum b => Qeq_bool a b
  | _, _ => false
  end.

Definition js_add (v : JSValue) (members : JsSet) : JsSet :=
  match v with
  | JStr x => {| strings := {[x]} ∪ strings members; others := others members |}
  | _ =>
      if existsb (sameValueZero v) (others members) then members
      else {| strings := strings members; others := others members ++ [v] |}
  end.

(** [s.add(v)] *)
Definition set_add (s : SetRef) (v : JSValue) : Async unit :=
  update (fun w => with_heap (alter (js_add v) s (heap w)) w).

(** [s.has(x)] for a string [x] *)
Definition set_has (w : World) (s : SetRef) (x : string) : bool :=
  match heap w !! s with
  | Some members => bool_decide (x ∈ strings members)
  | None => false
  end.

(** ** verification.ts *)

Definition KNOWN_VERIFIED_SNAP_PACKAGES : list string :=
  [ "firefox"; "thunderbird"; "chromium"; "vlc"; "brave"; "spotify"; "code";
    "intellij-idea-community"; "intellij-idea-ultimate"; "pycharm-community";
    "pycharm-professional"; "slack"; "discord"; "signal-desktop";
    "telegram-desktop"; "zoom-client"; "obsidian"; "bitwarden"; "blender";
    "gimp"; "inkscape"; "krita"; "libreoffice"; "obs-studio"; "vlc"; "node";
    "go"; "rustup"; "ruby"; "cmake"; "docker"; "kubectl"; "steam";
    "retroarch"; "vivaldi" ].

(** [KNOWN_VERIFIED_SNAP_PACKAGES.has(x)] *)
Definition known_has (x : string) : bool :=
  existsb (String.eqb x) KNOWN_VERIFIED_SNAP_PACKAGES.

Definition flathubRequest (page : Z) : Request :=
  {| endpoint := FlathubVerified page 250;
     headers := [("Accept", "application/json")];
     timeout := 10000 |}.

Definition snapRequest (cleanName : string) : Request :=
  {| endpoint := SnapInfo cleanName;
     headers := [("Accept", "application/json"); ("Snap-Device-Series", "16")];
     timeout := 5000 |}.

(** [for (const hit of hits) { if (hit.verification_verified && hit.app_id)
    verifiedApps.add(hit.app_id) }] *)
Fixpoint forHits (verifiedApps : SetRef) (hits : list JSValue) : Async unit :=
  match hits with
  | [] => Ret tt
  | hit :: rest =>
      verified <- get_prop hit "verification_verified" ;;
      cond <- (if truthy verified then get_prop hit "app_id" else Ret verified) ;;
      (if truthy cond
       then app_id <- get_prop hit "app_id" ;; set_add verifiedApps app_id
       else Ret tt) ;;;
      forHits verifiedApps rest
  end.

Definition snapCacheSet (snapName : string) (v : bool) : Async unit :=
  update (fun w => with_snapVerifiedCache (<[snapName := v]> (snapVerifiedCache w)) w).

Section PerItem.

(** [String.prototype.isWellFormed]: the string holds no lone surrogate. *)
Variable isWellFormed : string -> bool.

(** [encodeURIComponent(s)], which throws a [URIError] when [s] is not well
    formed. What it returns goes into the URL, which [SnapInfo] names by the
    string before escaping. *)
Definition encodeURIComponent (s : string) : Async string :=
  if isWellFormed s then Ret s else Throw URIError.

Definition fetchSnapVerification (snapName : string) : Async bool :=
  w <- read ;;
  match snapVerifiedCache w !! snapName with
  | Some cached => Ret cached
  | None =>
      try_catch
        (let cleanName := cleanNameOf snapName in
         escaped <- encodeURIComponent cleanName ;;
         response <- fetch (snapRequest escaped) ;;
         if negb (ok response) then
           snapCacheSet snapName false ;;; Ret false
         else
           data <- json response ;;
           snap <- get_prop data "snap" ;;
           publisher <- opt_chain snap "publisher" ;;
           validation <- opt_chain publisher "validation" ;;
           let isVerified := strict_eq_string validation "verified" in
           snapCacheSet snapName isVerified ;;; Ret isVerified)
        (fun error =>
           console_warn "Failed to fetch Snap verification" ;;;
           snapCacheSet snapName false ;;; Ret false)
  end.

(** [[...new Set(snapPackages)]]: first occurrences, in insertion order. *)
Definition uniqueOf (snapPackages : list string) : list string :=
  fold_left (fun seen x => if bool_decide (x ∈ seen) then seen else (seen ++ [x])%list)
            snapPackages [].

(** [a.slice(i, j)] for [0 <= i <= j] *)
Definition slice {A : Type} (a : list A) (i j : nat) : list A :=
  take (j - i)%nat (drop i a).

Definition BATCH_SIZE : nat := 5.

Fixpoint mapM {A B : Type} (f : A -> Async B) (l : list A) : Async (list B) :=
  match l with
  | [] => Ret []
  | x :: rest => y <- f x ;; ys <- mapM f rest ;; Ret (y :: ys)
  end.

(** [await Promise.all(batch.map(f))]. The callbacks are started in the
    order of the batch and each issues its request as it starts; what a
    callback does once it is answered touches the cache under its own
    package name only, and the names of a batch are distinct. The embedding
    delivers the answers in the order of the batch. *)
Definition promise_all_map {B : Type} (f : string -> Async B) (batch : list string)
  : Async (list B) :=
  update (fun w => with_batches (batches w ++ [batch]) w) ;;;
  mapM f batch.

Definition setAll (results : gmap string bool) (pairs : list (string * bool))
  : gmap string bool :=
  fold_left (fun r kv => <[fst kv := snd kv]> r) pairs results.

(** [async (pkg) => [pkg, await fetchSnapVerification(pkg)]] *)
Definition fetchPair (pkg : string) : Async (string * bool) :=
  isVerified <- fetchSnapVerification pkg ;;
  Ret (pkg, isVerified).

(** The [for (let i = 0; i < uniquePackages.length; i += BATCH_SIZE)] loop. *)
Fixpoint batchLoop (fuel : nat) (uniquePackages : list string) (i : nat)
    (results : gmap string bool) : Async (gmap string bool) :=
  if (i <? length uniquePackages)%nat then
    match fuel with
    | O => OutOfFuel
    | S fuel' =>
        let batch := slice uniquePackages i (i + BATCH_SIZE) in
        batchResults <- promise_all_map fetchPair batch ;;
        batchLoop fuel' uniquePackages (i + BATCH_SIZE)%nat (setAll results batchResults)
    end
  else Ret results.

Definition fetchAllSnapVerifications (fuel : nat) (snapPackages : list string)
  : Async (gmap string bool) :=
  let uniquePackages := uniqueOf snapPackages in
  batchLoop fuel uniquePackages 0 ∅.

End PerItem.

(** [flathubVerifiedCache?.has(appId) ?? false] *)
Definition isFlathubVerified (w : World) (appId : string) : bool :=
  match flathubVerifiedCache w with
  | Some s => set_has w s appId
  | None => false
  end.

Definition isSnapVerified (w : World) (snapName : string) : bool :=
  let cleanName := cleanNameOf snapName in
  if known_has cleanName then true
  else
    match snapVerifiedCache w !! cleanName with
    | Some b => b
    | None =>
        match snapVerifiedCache w !! snapName with
        | Some b => b
        | None => false
        end
    end.

Definition clearVerificationCache : Async unit :=
  update (with_flathubVerifiedCache None) ;;;
  update (with_snapVerifiedCache ∅).

(** ** nixUnfree.ts *)

Definition KNOWN_UNFREE_PACKAGES : list string :=
  [ "discord"; "slack"; "zoom-us"; "teams"; "skypeforlinux"; "google-chrome";
    "vivaldi"; "opera"; "spotify"; "steam"; "heroic"; "vscode"; "sublime4";
    "jetbrains.idea-ultimate"; "jetbrains.webstorm";
    "jetbrains.pycharm-professional"; "nvidia-x11"; "dropbox"; "1password";
    "masterpdfeditor" ].

Section NixUnfree.

(** [String.prototype.trim] and [String.prototype.toLowerCase] *)
Variable trim : string -> string.
Variable toLowerCase : string -> string.

Definition isUnfreePackage (pkg : string) : bool :=
  let cleanPkg := toLowerCase (trim pkg) in
  if existsb (String.eqb cleanPkg) KNOWN_UNFREE_PACKAGES then true
  else existsb (fun unfree => includes cleanPkg unfree) KNOWN_UNFREE_PACKAGES.

End NixUnfree.

(** ** useVerification.ts *)

(** [DistroId] is a union of string literals; at run time a string. *)
Definition DistroId := string.

Definition setIsLoading (b : bool) : Async unit :=
  update (fun w => with_hook
    {| isLoading := b; hasError := hasError (hook w);
       flathubLoaded := flathubLoaded (hook w); snapLoaded := snapLoaded (hook w);
       fetchedRef := fetchedRef (hook w) |} w).

Definition setHasError (b : bool) : Async unit :=
  update (fun w => with_hook
    {| isLoading := isLoading (hook w); hasError := b;
       flathubLoaded := flathubLoaded (hook w); snapLoaded := snapLoaded (hook w);
       fetchedRef := fetchedRef (hook w) |} w).

Definition setFlathubLoaded (b : bool) : Async unit :=
  update (fun w => with_hook
    {| isLoading := isLoading (hook w); hasError := hasError (hook w);
       flathubLoaded := b; snapLoaded := snapLoaded (hook w);
       fetchedRef := fetchedRef (hook w) |} w).

Definition setSnapLoaded (b : bool) : Async unit :=
  update (fun w => with_hook
    {| isLoading := isLoading (hook w); hasError := hasError (hook w);
       flathubLoaded := flathubLoaded (hook w); snapLoaded := b;
       fetchedRef := fetchedRef (hook w) |} w).

Definition setFetchedRef (b : bool) : Async unit :=
  update (fun w => with_hook
    {| isLoading := isLoading (hook w); hasError := hasError (hook w);
       flathubLoaded := flathubLoaded (hook w); snapLoaded := snapLoaded (hook w);
       fetchedRef := b |} w).

Definition isVerified (w : World) (distro : DistroId) (packageName : string) : bool :=
  if String.eqb distro "flatpak" && flathubLoaded (hook w) then
    isFlathubVerified w packageName
  else if String.eqb distro "snap" && snapLoaded (hook w) then
    isSnapVerified w packageName
  else false.

Definition getVerificationType (w : World) (distro : DistroId) (packageName : string)
  : option string :=
  if String.eqb distro "flatpak" && flathubLoaded (hook w)
     && isFlathubVerified w packageName then
    Some "flathub"
  else if String.eqb distro "snap" && snapLoaded (hook w)
          && isSnapVerified w packageName then
    Some "snap"
  else None.

Section Resolver.

(** [ToNumber] on strings, arrays and objects, which the source can meet only
    in [page < data.totalPages] against a payload of the wrong shape; it is
    left open, [None] standing for NaN. *)
Variable toNumberOther : JSValue -> option Q.

Definition toNumber (v : JSValue) : option Q :=
  match v with
  | JUndefined => None
  | JNull => Some 0%Q
  | JBool b => Some (if b then 1%Q else 0%Q)
  | JNum q => Some q
  | _ => toNumberOther v
  end.

(** [n < v] for a number [n] *)
Definition js_lt (n : Z) (v : JSValue) : bool :=
  match toNumber v with
  | Some q => negb (Qle_bool q (inject_Z n))
  | None => false
  end.

(** The [while (hasMore)] loop of [fetchFlathubVerifiedApps], entered with
    the current values of [page] and [hasMore]. *)
Fixpoint pagesLoop (fuel : nat) (verifiedApps : SetRef) (page : Z) (hasMore : bool)
  : Async unit :=
  if hasMore then
    match fuel with
    | O => OutOfFuel
    | S fuel' =>
        response <- fetch (flathubRequest page) ;;
        if negb (ok response) then
          console_warn "Flathub API returned an error status, treating as empty" ;;;
          Ret tt                                               (* break *)
        else
          data <- json response ;;
          hits <- get_prop data "hits" ;;
          items <- iterate hits ;;
          forHits verifiedApps items ;;;
          totalPages <- get_prop data "totalPages" ;;
          let hasMore := js_lt page totalPages in
          let page := page + 1 in
          if page >? 10 then Ret tt                            (* break *)
          else pagesLoop fuel' verifiedApps page hasMore
    end
  else Ret tt.

Definition fetchFlathubVerifiedApps (fuel : nat) : Async SetRef :=
  w <- read ;;
  match flathubVerifiedCache w with
  | Some cached => Ret cached
  | None =>
      verifiedApps <- newSet ;;
      try_catch
        (pagesLoop fuel verifiedApps 1 true)
        (fun error => console_warn "Failed to fetch Flathub verification data") ;;;
      update (with_flathubVerifiedCache (Some verifiedApps)) ;;;
      Ret verifiedApps
  end.

Definition fetchVerificationData (fuel : nat) : Async unit :=
  try_finally
    (try_catch
       (fetchFlathubVerifiedApps fuel ;;;
        setFlathubLoaded true ;;;
        setSnapLoaded true)
       (fun error =>
          console_error "Error fetching verification data" ;;;
          setHasError true ;;;
          setSnapLoaded true))
    (setIsLoading false).

(** The effect [useEffect(() => { ... }, [])] runs on mount. *)
Definition mountEffect (fuel : nat) : Async unit :=
  w <- read ;;
  if fetchedRef (hook w) then Ret tt
  else
    setFetchedRef true ;;;
    fetchVerificationData fuel.

Variable isWellFormed : string -> bool.

(** The operations of the module and of the hook, the cache clear apart,
    as a caller may invoke them one after the other. *)
Inductive Call : Type :=
| CallFetchFlathub (fuel : nat)
| CallFetchSnap (snapName : string)
| CallFetchAllSnap (fuel : nat) (snapPackages : list string)
| CallMount (fuel : nat).

Definition perform (c : Call) : Async unit :=
  match c with
  | CallFetchFlathub fuel => fetchFlathubVerifiedApps fuel ;;; Ret tt
  | CallFetchSnap snapName => fetchSnapVerification isWellFormed snapName ;;; Ret tt
  | CallFetchAllSnap fuel snapPackages =>
      fetchAllSnapVerifications isWellFormed fuel snapPackages ;;; Ret tt
  | CallMount fuel => mountEffect fuel
  end.

(** [later w w']: [w'] is reached from [w] by calls that do not overlap,
    each against a network of its own. *)
Inductive later : World -> World -> Prop :=
| later_now (w : World) : later w w
| later_call (w w1 : World) (net : Network) (c : Call) :
    later w w1 -> later w (snd (run net (perform c) w1)).

End Resolver.

(** ** What the per-item fetch concludes from an answer *)

(** The payload has the shape [{ snap: { publisher: { validation?: string } } }]. *)
Definition wellShaped (data : JSValue) : bool :=
  match data with
  | JObj top =>
      match field "snap" top with
      | JObj snap =>
          match field "publisher" snap with
          | JObj publisher =>
              match field "validation" publisher with
              | JUndefined | JStr _ => true
              | _ => false
              end
          | _ => false
          end
      | _ => false
      end
  | _ => false
  end.

(** The remote lookup failed: transport error, non-success status, a body
    that is not JSON, or a payload of another shape. *)
Definition lookupFailed (answer : FetchResult) : bool :=
  match answer with
  | Rejected _ => true
  | Responded r =>
      negb (ok r) ||
      match body r with
      | None => true
      | Some data => negb (wellShaped data)
      end
  end.

(** The answer says that the publisher is verified. *)
Definition snapVerdict (answer : FetchResult) : bool :=
  match answer with
  | Rejected _ => false
  | Responded r =>
      ok r &&
      match body r with
      | Some (JObj top) =>
          match field "snap" top with
          | JObj snap =>
              match field "publisher" snap with
              | JObj publisher => strict_eq_string (field "validation" publisher) "verified"
              | _ => false
              end
          | _ => false
          end
      | _ => false
      end
  end.

(** The answer makes the body of [fetchSnapVerification] throw. *)
Definition snapThrows (answer : FetchResult) : bool :=
  match answer with
  | Rejected _ => true
  | Responded r =>
      ok r &&
      match body r with
      | None | Some JUndefined | Some JNull => true
      | _ => false
      end
  end.

Section PerItemSteps.

Variable isWellFormed : string -> bool.
Variable net : Network.

(** The [catch] block of [fetchSnapVerification]. *)
Definition snapFailed (snapName : string) (w : World) : World :=
  let w1 := with_console (console w ++ [ConsoleWarn "Failed to fetch Snap verification"]) w in
  with_snapVerifiedCache (<[snapName := false]> (snapVerifiedCache w1)) w1.

(** One per-item fetch as a function of the state it starts in. *)
Definition snapStep (snapName : string) (w : World) : bool * World :=
  match snapVerifiedCache w !! snapName with
  | Some cached => (cached, w)
  | None =>
      if isWellFormed (cleanNameOf snapName) then
        let answer := net (requests w) (snapRequest (cleanNameOf snapName)) in
        let w1 := log_request (snapRequest (cleanNameOf snapName)) w in
        if snapThrows answer then (false, snapFailed snapName w1)
        else
          (snapVerdict answer,
           with_snapVerifiedCache (<[snapName := snapVerdict answer]> (snapVerifiedCache w1)) w1)
      else (false, snapFailed snapName w)
  end.

(** A run of per-item fetches, one after the other. *)
Fixpoint snapSteps (pkgs : list string) (w : World) : list (string * bool) * World :=
  match pkgs with
  | [] => ([], w)
  | pkg :: rest =>
      let r := snapStep pkg w in
      let rs := snapSteps rest (snd r) in
      ((pkg, fst r) :: fst rs, snd rs)
  end.

(** The per-item fetch, called for the names of [pkgs] one after the other
    from [w], returns the verdicts of [pairs], name by name, and ends in [w']. *)
Fixpoint fetchedInTurn (pkgs : list string) (w : World) (pairs : list (string * bool))
    (w' : World) : Prop :=
  match pkgs, pairs with
  | [], [] => w' = w
  | pkg :: rest, (key, verdict) :: pairs' =>
      key = pkg /\
      exists w1,
        run net (fetchSnapVerification isWellFormed pkg) w = (Returned verdict, w1) /\
        fetchedInTurn rest w1 pairs' w'
  | _, _ => False
  end.

End PerItemSteps.

(** ** Batches, as the specification words them *)

(** Consecutive batches of five, the last one possibly smaller. *)
Definition batchesOf (uniquePackages : list string) : list (list string) :=
  map (fun j => slice uniquePackages (5 * j) (5 * j + 5))
      (seq 0 ((length uniquePackages + 4) / 5)).

(** The requests for [n] consecutive pages from page [first] on. *)
Definition pageRequests (first : Z) (n : nat) : list Request :=
  map (fun i => flathubRequest (first + Z.of_nat i)) (seq 0 n).

(** ** Frames: what a computation leaves alone *)

(** Nothing but the members of the set [s], the request log and the console
    differs between [w] and [w']. *)
Definition frame (s : SetRef) (w w' : World) : Prop :=
  flathubVerifiedCache w' = flathubVerifiedCache w /\
  snapVerifiedCache w' = snapVerifiedCache w /\
  hook w' = hook w /\
  batches w' = batches w /\
  length (heap w') = length (heap w) /\
  forall l : SetRef, l <> s -> heap w' !! l = heap w !! l.

Definition quiet (s : SetRef) (w w' : World) : Prop :=
  frame s w w' /\ requests w' = requests w.

(** [m] always settles, and every run of it relates its two ends by [R]. *)
Definition settles {A : Type} (R : World -> World -> Prop) (m : Async A) : Prop :=
  forall (net : Network) (w : World),
    fst (run net m w) <> Unfinished /\ R w (snd (run net m w)).


(** The world in which a traversal starts: the fresh set is allocated. *)
Definition allocated (w : World) : World := with_heap (heap w ++ [emptySet]) w.

(** The hook state in which a first mount ends. *)
Definition settledHook (h : HookState) : HookState :=
  {| isLoading := false; hasError := hasError h; flathubLoaded := true;
     snapLoaded := true; fetchedRef := true |}.

(** ** Networks and payloads used in the examples *)

Definition noCoercion : JSValue -> option Q := fun _ => None.

(** Every name is well formed. *)
Definition wellFormedNames : string -> bool := fun _ => true.

(** The name ["bad"] stands for a name with a lone surrogate. *)
Definition allButBad : string -> bool := fun s => negb (String.eqb s "bad").

Definition serverError : Response := {| status := 500; body := None |}.

(** Every request is answered with HTTP 500. *)
Definition failingNetwork : Network := fun _ _ => Responded serverError.

Definition verifiedPublisher : JSValue :=
  JObj [("snap",
         JObj [("publisher",
                JObj [("validation", JStr "verified");
                      ("display-name", JStr "Publisher");
                      ("username", JStr "publisher")])])].

(** The per-item endpoint reports a verified publisher for every name; the
    bulk endpoint is down. *)
Definition snapStore : Network :=
  fun _ req =>
    match endpoint req with
    | SnapInfo _ => Responded {| status := 200; body := Some verifiedPublisher |}
    | FlathubVerified _ _ => Responded serverError
    end.

Definition hit (app_id : string) (verified : bool) : JSValue :=
  JObj [("app_id", JStr app_id); ("verification_verified", JBool verified)].

Definition pageOf (hits : list JSValue) (totalPages : Z) : JSValue :=
  JObj [("hits", JArr hits); ("totalHits", JNum (inject_Z 1));
        ("totalPages", JNum (inject_Z totalPages))].

(** A bulk endpoint that reports, on every page, that more pages remain. *)
Definition endlessPages : Network :=
  fun _ req =>
    match endpoint req with
    | FlathubVerified page _ =>
        Responded {| status := 200;
                     body := Some (pageOf [hit "org.example.App" true] (page + 1)) |}
    | SnapInfo _ => Responded serverError
    end.

Definition twelve : list string :=
  ["a"; "b"; "c"; "d"; "e"; "f"; "g"; "h"; "i"; "j"; "k"; "l"].

(** The state of a mounted resolver whose bulk fetch met HTTP 500. *)
Definition degradedWorld : World :=
  snd (run failingNetwork (mountEffect noCoercion 10) initialWorld).

(** The same, after a per-item fetch of the bare name ["foo"]. *)
Definition fooWorld : World :=
  snd (run snapStore (fetchSnapVerification wellFormedNames "foo") degradedWorld).

(** ** Payloads of the bulk endpoint, read as the source reads them *)

(** The identifier a hit contributes to the verified set, if any: its
    [app_id], when [verification_verified] is truthy and [app_id] is a
    non-empty string. *)
Definition hitId (h : JSValue) : option string :=
  match h with
  | JObj fields =>
      if truthy (field "verification_verified" fields) then
        match field "app_id" fields with
        | JStr x => if String.eqb x "" then None else Some x
        | _ => None
        end
      else None
  | _ => None
  end.

Definition idsOf (hits : list JSValue) : gset string :=
  list_to_set (omap hitId hits).

(** The value a hit adds to the verified set, if any: its [app_id], of
    whatever type, when [verification_verified] and [app_id] are truthy. *)
Definition hitMember (h : JSValue) : option JSValue :=
  match h with
  | JObj fields =>
      if truthy (field "verification_verified" fields) && truthy (field "app_id" fields)
      then Some (field "app_id" fields)
      else None
  | _ => None
  end.

Definition addHit (members : JsSet) (h : JSValue) : JsSet :=
  match hitMember h with
  | Some v => js_add v members
  | None => members
  end.

Definition addHits (hits : list JSValue) (members : JsSet) : JsSet :=
  fold_left addHit hits members.

Definition nullish (v : JSValue) : bool :=
  match v with
  | JUndefined | JNull => true
  | _ => false
  end.

Definition hitOf (entry : string * bool) : JSValue := hit (fst entry) (snd entry).

(** A bulk endpoint that holds [total] pages, page [p] listing [content p],
    and that is down from page [down] on. *)
Definition catalogue (content : Z -> list (string * bool)) (total down : Z) : Network :=
  fun _ req =>
    match endpoint req with
    | FlathubVerified page _ =>
        if page <? down
        then Responded {| status := 200;
                          body := Some (pageOf (map hitOf (content page)) total) |}
        else Responded serverError
    | SnapInfo _ => Responded serverError
    end.

(** The identifiers contributed by [n] consecutive pages from page [first] on. *)
Definition verifiedOn (content : Z -> list (string * bool)) (first : Z) (n : nat)
  : gset string :=
  ⋃ map (fun i => idsOf (map hitOf (content (first + Z.of_nat i)))) (seq 0 n).

(** ** Relations between the two ends of a run *)

(** Every run of [m], finished or not, relates its two ends by [R]. *)
Definition preserves {A : Type} (R : World -> World -> Prop) (m : Async A) : Prop :=
  forall (net : Network) (w : World), R w (snd (run net m w)).

Definition sameSnapCache (w w' : World) : Prop :=
  snapVerifiedCache w' = snapVerifiedCache w.

Definition keepsEntries (w w' : World) : Prop :=
  forall (id : string) (b : bool),
    snapVerifiedCache w !! id = Some b -> snapVerifiedCache w' !! id = Some b.

(** The identifier has no entry in the per-item cache. *)
Definition uncached (w : World) (snapName : string) : bool :=
  match snapVerifiedCache w !! snapName with
  | Some _ => false
  | None => true
  end.

(** The many-item fetch sends a request for this identifier. *)
Definition asksFor (isWellFormed : string -> bool) (w : World) (snapName : string) : bool :=
  uncached w snapName && isWellFormed (cleanNameOf snapName).

(** ** scripts/nix.ts *)

Definition newline : string := String (ascii_of_nat 10) EmptyString.

(** [l.join(sep)] *)
Fixpoint join (sep : string) (l : list string) : string :=
  match l with
  | [] => EmptyString
  | [x] => x
  | x :: rest => String.append x (String.append sep (join sep rest))
  end.

Section NixConfig.

(** [PackageInfo] is declared in [./shared]; the generator reads its [pkg]
    field only. *)
Variable PackageInfo : Type.
Variable pkg : PackageInfo -> string.

Variable trim : string -> string.
Variable toLowerCase : string -> string.

(** [Array.prototype.sort] with the default comparison. *)
Variable sort : list string -> list string.

Definition generateNixConfig (packages : list PackageInfo) : string :=
  let validPackages :=
    List.filter (fun p => negb (String.eqb (trim (pkg p)) "")) packages in
  if (length validPackages =? 0)%nat then "# No packages selected"
  else
    let sortedPkgs := sort (map (fun p => trim (pkg p)) validPackages) in
    let packageList :=
      join newline (map (fun name => String.append "    " name) sortedPkgs) in
    let unfreePkgs := List.filter (isUnfreePackage trim toLowerCase) sortedPkgs in
    let unfreeComment :=
      if (0 <? length unfreePkgs)%nat then
        String.append "# Unfree: "
          (String.append (join ", " unfreePkgs)
             (String.append newline
                (String.append "# Requires: nixpkgs.config.allowUnfree = true;"
                   (String.append newline newline))))
      else EmptyString in
    String.append unfreeComment
      (String.append "environment.systemPackages = with pkgs; ["
         (String.append newline
            (String.append packageList (String.append newline "];")))).

End NixConfig.

(** * Proofs *)

(** ** Laws of the monad *)

Lemma run_bind {A B : Type} (net : Network) (m : Async A) (f : A -> Async B) (w : World) :
  run net (bind m f) w =
  match run net m w with
  | (Returned a, w') => run net (f a) w'
  | (Raised e, w') => (Raised e, w')
  | (Unfinished, w') => (Unfinished, w')
  end.
Proof.
  revert w. induction m as [a|e| |k IH|g k IH|req k IH]; intros w; simpl; auto.
Qed.

Lemma run_try_catch {A : Type} (net : Network) (m : Async A) (h : Error -> Async A) (w : World) :
  run net (try_catch m h) w =
  match run net m w with
  | (Raised e, w') => run net (h e) w'
  | other => other
  end.
Proof.
  revert w. induction m as [a|e| |k IH|g k IH|req k IH]; intros w; simpl; auto.
Qed.

Lemma run_try_finally {A : Type} (net : Network) (m : Async A) (final : Async unit) (w : World) :
  run net (try_finally m final) w =
  match run net m w with
  | (Returned a, w') => run net (final ;;; Ret a) w'
  | (Raised e, w') => run net (final ;;; Throw e) w'
  | (Unfinished, w') => (Unfinished, w')
  end.
Proof.
  revert w. induction m as [a|e| |k IH|g k IH|req k IH]; intros w; simpl; auto.
Qed.

(** [run] is [start] followed by the delivery of the network's answers. *)
Lemma run_start {A : Type} (net : Network) (m : Async A) (w : World) :
  run net m w =
  match start m w with
  | (Settled o, w1) => (o, w1)
  | (Pending req k, w1) => run net (k (net (removelast (requests w1)) req)) w1
  end.
Proof.
  revert w. induction m as [a|e| |k IH|g k IH|req k IH]; intros w; simpl; auto.
  rewrite removelast_last. reflexivity.
Qed.

(** ** Frames *)

Lemma frame_refl (s : SetRef) (w : World) : frame s w w.
Proof. unfold frame. auto 10. Qed.

Lemma frame_trans (s : SetRef) (w1 w2 w3 : World) :
  frame s w1 w2 -> frame s w2 w3 -> frame s w1 w3.
Proof.
  unfold frame. intros (a1 & a2 & a3 & a4 & a5 & a6) (b1 & b2 & b3 & b4 & b5 & b6).
  repeat split; try congruence.
  intros l Hl. rewrite b6, a6; auto.
Qed.

Lemma quiet_refl (s : SetRef) (w : World) : quiet s w w.
Proof. split; [apply frame_refl | reflexivity]. Qed.

Lemma quiet_trans (s : SetRef) (w1 w2 w3 : World) :
  quiet s w1 w2 -> quiet s w2 w3 -> quiet s w1 w3.
Proof.
  intros [f1 r1] [f2 r2]. split; [eapply frame_trans; eauto | congruence].
Qed.

Section Settles.

Variable R : World -> World -> Prop.
Hypothesis R_refl : forall w, R w w.
Hypothesis R_trans : forall w1 w2 w3, R w1 w2 -> R w2 w3 -> R w1 w3.

Lemma settles_ret {A : Type} (a : A) : settles R (Ret a).
Proof. intros net w. simpl. split; [discriminate | apply R_refl]. Qed.

Lemma settles_throw {A : Type} (e : Error) : settles R (@Throw A e).
Proof. intros net w. simpl. split; [discriminate | apply R_refl]. Qed.

Lemma settles_bind {A B : Type} (m : Async A) (f : A -> Async B) :
  settles R m -> (forall a, settles R (f a)) -> settles R (bind m f).
Proof.
  intros Hm Hf net w. rewrite run_bind.
  destruct (Hm net w) as [Hne HR].
  destruct (run net m w) as [[a|e|] w1]; simpl in *.
  - destruct (Hf a net w1) as [Hne' HR']. split; [assumption | eauto].
  - split; [discriminate | assumption].
  - congruence.
Qed.

Lemma settles_update (f : World -> World) :
  (forall w, R w (f w)) -> settles R (update f).
Proof. intros Hf net w. simpl. split; [discriminate | apply Hf]. Qed.

End Settles.

Lemma settles_get_prop (R : World -> World -> Prop) (v : JSValue) (p : string) :
  (forall w, R w w) -> settles R (get_prop v p).
Proof.
  intros Hr. destruct v; simpl; (apply settles_ret || apply settles_throw); assumption.
Qed.

Lemma settles_set_add (s : SetRef) (v : JSValue) : settles (quiet s) (set_add s v).
Proof.
  apply settles_update. intros w. split; [|reflexivity].
  unfold frame. cbn [heap with_heap]. do 4 (split; [reflexivity|]). split.
  - apply length_alter.
  - intros l Hl. apply list_lookup_alter_ne. congruence.
Qed.

Lemma settles_forHits (s : SetRef) (items : list JSValue) :
  settles (quiet s) (forHits s items).
Proof.
  induction items as [|hit rest IH]; simpl.
  - apply settles_ret, quiet_refl.
  - apply settles_bind; [apply quiet_trans | apply settles_get_prop, quiet_refl |].
    intros verified. apply settles_bind; [apply quiet_trans | |].
    + destruct (truthy verified);
        [apply settles_get_prop, quiet_refl | apply settles_ret, quiet_refl].
    + intros cond. apply settles_bind; [apply quiet_trans | | intros _; exact IH].
      destruct (truthy cond); [|apply settles_ret, quiet_refl].
      apply settles_bind; [apply quiet_trans | apply settles_get_prop, quiet_refl |].
      intros app_id. apply settles_set_add.
Qed.

Lemma pageRequests_S (p : Z) (n : nat) :
  pageRequests p (S n) = flathubRequest p :: pageRequests (p + 1) n.
Proof.
  unfold pageRequests. simpl. rewrite Z.add_0_r. f_equal.
  rewrite <- seq_shift, map_map. apply map_ext. intros i. f_equal. lia.
Qed.

Lemma frame_log_request (s : SetRef) (req : Request) (w : World) :
  frame s w (log_request req w).
Proof. unfold frame. simpl. auto 10. Qed.

(** ** The bulk fetch *)

Section BulkFetch.

Variable toNumberOther : JSValue -> option Q.
Variable net : Network.

Ltac settle H w1 Hf Hr :=
  let Hne := fresh "Hne" in let E := fresh "E" in
  match type of H with
  | settles _ ?m =>
      destruct (H net w1) as [Hne [Hf Hr]];
      destruct (run net m w1) as [[?|?|] ?] eqn:E; simpl in Hne, Hf, Hr; [ | |congruence]
  end.

Lemma run_pagesLoop (fuel : nat) (s : SetRef) : forall (page : Z) (hasMore : bool) (w : World),
  1 <= page <= 10 -> (Z.to_nat (11 - page) <= fuel)%nat ->
  exists o w' n,
    run net (pagesLoop toNumberOther fuel s page hasMore) w = (o, w') /\
    o <> Unfinished /\
    (n <= Z.to_nat (11 - page))%nat /\
    requests w' = (requests w ++ pageRequests page n)%list /\
    frame s w w'.
Proof.
  induction fuel as [|fuel IH]; intros page hasMore w Hp Hf.
  { exfalso; lia. }
  destruct hasMore.
  2:{ exists (Returned tt), w, 0%nat. simpl. rewrite app_nil_r.
      split; [reflexivity|]. split; [discriminate|]. split; [lia|]. split; [reflexivity | apply frame_refl]. }
  assert (Hone : forall o w', requests w' = (requests w ++ [flathubRequest page])%list ->
            frame s w w' -> o <> Unfinished ->
            exists (o0 : Outcome unit) w'0 n, (o, w') = (o0, w'0) /\ o0 <> Unfinished /\
              (n <= Z.to_nat (11 - page))%nat /\
              requests w'0 = (requests w ++ pageRequests page n)%list /\ frame s w w'0).
  { intros o w' Hr Hfr Ho. exists o, w', 1%nat. rewrite pageRequests_S. simpl.
    split; [reflexivity|]. split; [assumption|]. split; [lia|]. split; assumption. }
  cbn [pagesLoop]. rewrite run_bind. cbn [fetch run].
  destruct (net (requests w) (flathubRequest page)) as [e|r].
  { cbn [run]. apply Hone; [reflexivity | apply frame_log_request | discriminate]. }
  cbn [run]. destruct (ok r); cbn [negb].
  2:{ cbn. apply Hone; [reflexivity | | discriminate]. unfold frame; simpl; auto 10. }
  rewrite run_bind. unfold json. destruct (body r) as [data|]; cbn [run].
  2:{ apply Hone; [reflexivity | apply frame_log_request | discriminate]. }
  set (w1 := log_request (flathubRequest page) w).
  assert (Hw1 : frame s w w1) by apply frame_log_request.
  assert (Hr1 : requests w1 = (requests w ++ [flathubRequest page])%list) by reflexivity.
  clearbody w1.
  rewrite run_bind.
  pose proof (settles_get_prop (quiet s) data "hits" (quiet_refl s)) as H1.
  settle H1 w1 Hf1 Hq1.
  2:{ apply Hone; [congruence | eauto using frame_trans | discriminate]. }
  rewrite run_bind.
  assert (H2 : settles (quiet s) (iterate a)).
  { destruct a; simpl; (apply settles_ret || apply settles_throw); apply quiet_refl. }
  settle H2 w0 Hf2 Hq2.
  2:{ apply Hone; [congruence | eauto using frame_trans | discriminate]. }
  rewrite run_bind.
  pose proof (settles_forHits s a0) as H3.
  settle H3 w2 Hf3 Hq3.
  2:{ apply Hone; [congruence | eauto using frame_trans | discriminate]. }
  rewrite run_bind.
  pose proof (settles_get_prop (quiet s) data "totalPages" (quiet_refl s)) as H4.
  settle H4 w3 Hf4 Hq4.
  2:{ apply Hone; [congruence | eauto using frame_trans | discriminate]. }
  assert (Hfr : frame s w w4) by eauto using frame_trans.
  assert (Hrq : requests w4 = (requests w ++ [flathubRequest page])%list) by congruence.
  cbv zeta.
  destruct (page + 1 >? 10) eqn:Hgt.
  { cbn [run]. apply Hone; [assumption | assumption | discriminate]. }
  destruct (IH (page + 1) (js_lt toNumberOther page a2) w4) as (o & w' & n & Hrun & Ho & Hn & Hreq & Hfr').
  { lia. } { lia. }
  exists o, w', (S n). rewrite pageRequests_S.
  split; [exact Hrun|]. split; [exact Ho|]. split; [lia|]. split.
  - rewrite Hreq, Hrq, <- app_assoc. reflexivity.
  - eauto using frame_trans.
Qed.

Lemma run_pagesLoop_error_status (fuel : nat) (s : SetRef) (page : Z) (w : World) (r : Response) :
  net (requests w) (flathubRequest page) = Responded r ->
  ok r = false ->
  run net (pagesLoop toNumberOther (S fuel) s page true) w =
  (Returned tt,
   with_console
     (console w ++ [ConsoleWarn "Flathub API returned an error status, treating as empty"])
     (log_request (flathubRequest page) w)).
Proof.
  intros Hnet Hok. cbn [pagesLoop]. rewrite run_bind. cbn [fetch run].
  rewrite Hnet. cbn [run]. rewrite Hok. reflexivity.
Qed.

Lemma run_fetchFlathub_cached (fuel : nat) (w : World) (s : SetRef) :
  flathubVerifiedCache w = Some s ->
  run net (fetchFlathubVerifiedApps toNumberOther fuel) w = (Returned s, w).
Proof. intros Hc. unfold fetchFlathubVerifiedApps. simpl. rewrite Hc. reflexivity. Qed.

Lemma run_fetchFlathub_fresh (fuel : nat) (w : World) :
  flathubVerifiedCache w = None ->
  run net (fetchFlathubVerifiedApps toNumberOther fuel) w =
  match run net (pagesLoop toNumberOther fuel (length (heap w)) 1 true) (allocated w) with
  | (Returned _, w1) =>
      (Returned (length (heap w)), with_flathubVerifiedCache (Some (length (heap w))) w1)
  | (Raised _, w1) =>
      (Returned (length (heap w)),
       with_flathubVerifiedCache (Some (length (heap w)))
         (with_console (console w1 ++ [ConsoleWarn "Failed to fetch Flathub verification data"]) w1))
  | (Unfinished, w1) => (Unfinished, w1)
  end.
Proof.
  intros Hc. unfold fetchFlathubVerifiedApps. simpl. rewrite Hc. simpl.
  rewrite run_bind, run_try_catch. fold (allocated w).
  destruct (run net (pagesLoop toNumberOther fuel (length (heap w)) 1 true) (allocated w))
    as [[[]|e|] w1]; reflexivity.
Qed.

Lemma fetchFlathub_completes (fuel : nat) (w : World) :
  (10 <= fuel)%nat ->
  exists s w' n,
    run net (fetchFlathubVerifiedApps toNumberOther fuel) w = (Returned s, w') /\
    flathubVerifiedCache w' = Some s /\
    (n <= 10)%nat /\
    requests w' = (requests w ++ pageRequests 1 n)%list /\
    hook w' = hook w /\
    snapVerifiedCache w' = snapVerifiedCache w /\
    batches w' = batches w /\
    (forall l, (l < length (heap w))%nat -> heap w' !! l = heap w !! l).
Proof.
  intros Hfuel. destruct (flathubVerifiedCache w) as [s|] eqn:Hc.
  - exists s, w, 0%nat. rewrite (run_fetchFlathub_cached fuel w s Hc). simpl.
    rewrite app_nil_r. repeat (split; [first [reflexivity | assumption | lia]|]). auto.
  - rewrite (run_fetchFlathub_fresh fuel w Hc).
    destruct (run_pagesLoop fuel (length (heap w)) 1 true (allocated w))
      as (o & w1 & n & Hrun & Ho & Hn & Hreq & Hc1 & Hs1 & Hh1 & Hb1 & Hl1 & Hcells);
      [lia | lia |].
    rewrite Hrun.
    assert (Hold : forall l, (l < length (heap w))%nat -> heap w1 !! l = heap w !! l).
    { intros l Hl. rewrite Hcells by lia. unfold allocated. simpl.
      apply lookup_app_l. assumption. }
    destruct o as [[]|e|]; [| |congruence].
    + exists (length (heap w)), (with_flathubVerifiedCache (Some (length (heap w))) w1), n.
      simpl. repeat (split; [first [reflexivity | assumption | lia]|]). assumption.
    + eexists _, _, n. split; [reflexivity|]. simpl.
      repeat (split; [first [reflexivity | assumption | lia]|]). assumption.
Qed.

Lemma run_mountEffect_mounted (fuel : nat) (w : World) :
  fetchedRef (hook w) = true ->
  run net (mountEffect toNumberOther fuel) w = (Returned tt, w).
Proof. intros H. unfold mountEffect. simpl. rewrite H. reflexivity. Qed.

(** A first mount always completes, and ends with [hasError] as it found
    it: the [catch] branch of [fetchVerificationData] never runs. *)
Lemma run_mountEffect_first (fuel : nat) (w : World) :
  fetchedRef (hook w) = false ->
  (10 <= fuel)%nat ->
  exists s w' n,
    run net (mountEffect toNumberOther fuel) w = (Returned tt, w') /\
    hook w' = settledHook (hook w) /\
    flathubVerifiedCache w' = Some s /\
    (n <= 10)%nat /\
    requests w' = (requests w ++ pageRequests 1 n)%list /\
    snapVerifiedCache w' = snapVerifiedCache w /\
    (forall l, (l < length (heap w))%nat -> heap w' !! l = heap w !! l).
Proof.
  intros Href Hfuel. unfold mountEffect, read. cbn [bind run]. rewrite Href.
  unfold setFetchedRef, update. cbn [bind run].
  unfold fetchVerificationData. rewrite run_try_finally, run_try_catch, run_bind.
  set (w0 := with_hook _ w).
  destruct (fetchFlathub_completes fuel w0 Hfuel)
    as (s & w1 & n & Hrun & Hc & Hn & Hreq & Hh & Hsn & Hb & Hcells).
  rewrite Hrun. simpl. exists s. eexists. exists n.
  split; [reflexivity|]. simpl. rewrite Hh. subst w0. simpl.
  repeat (split; [first [reflexivity | assumption | lia]|]). assumption.
Qed.
End BulkFetch.

(** ** Arithmetic of the batches *)

Lemma batch_count_spec (n : nat) :
  (n <= 5 * ((n + 4) / 5) /\ 5 * ((n + 4) / 5) < n + 5)%nat.
Proof.
  pose proof (Nat.div_mod_eq (n + 4) 5) as H1.
  pose proof (Nat.mod_upper_bound (n + 4) 5) as H2.
  lia.
Qed.

Lemma with_batches_same (w : World) : with_batches (batches w) w = w.
Proof. destruct w; reflexivity. Qed.

Lemma with_batches_twice (b1 b2 : list (list string)) (w : World) :
  with_batches b2 (with_batches b1 w) = with_batches b2 w.
Proof. reflexivity. Qed.

(** ** De-duplication *)

Lemma uniqueOf_fold (l : list string) : forall seen : list string,
  NoDup seen ->
  NoDup (fold_left (fun seen x => if bool_decide (x ∈ seen) then seen else seen ++ [x]) l seen) /\
  forall x, x ∈ fold_left (fun seen x => if bool_decide (x ∈ seen) then seen else seen ++ [x]) l seen
            <-> x ∈ seen \/ x ∈ l.
Proof.
  induction l as [|y l IH]; intros seen Hnd; simpl.
  - split; [assumption|]. intros x. rewrite elem_of_nil. tauto.
  - destruct (bool_decide_reflect (y ∈ seen)) as [Hin|Hnin].
    + destruct (IH seen Hnd) as [H1 H2]. split; [assumption|].
      intros x. rewrite H2, elem_of_cons. split; [tauto|].
      intros [H|[->|H]]; auto.
    + assert (Hnd' : NoDup (seen ++ [y])).
      { apply NoDup_app. split; [assumption|]. split.
        - intros z Hz Hy. apply list_elem_of_singleton in Hy. subst. contradiction.
        - apply NoDup_singleton. }
      destruct (IH (seen ++ [y]) Hnd') as [H1 H2]. split; [assumption|].
      intros x. rewrite H2, elem_of_app, list_elem_of_singleton, elem_of_cons. tauto.
Qed.

Lemma uniqueOf_NoDup (l : list string) : NoDup (uniqueOf l).
Proof. apply (uniqueOf_fold l []). constructor. Qed.

Lemma uniqueOf_elem (l : list string) (x : string) : x ∈ uniqueOf l <-> x ∈ l.
Proof.
  unfold uniqueOf. destruct (uniqueOf_fold l [] (NoDup_nil_2)) as [_ H].
  rewrite H, elem_of_nil. tauto.
Qed.

Lemma uniqueOf_length (l : list string) : (length (uniqueOf l) <= length l)%nat.
Proof.
  apply submseteq_length, NoDup_submseteq; [apply uniqueOf_NoDup|].
  intros x. apply uniqueOf_elem.
Qed.

(** ** The result map *)

Lemma setAll_dom (pairs : list (string * bool)) : forall results : gmap string bool,
  dom (setAll results pairs) = dom results ∪ list_to_set (map fst pairs).
Proof.
  unfold setAll. induction pairs as [|[k v] pairs IH]; intros results; simpl.
  - rewrite (right_id_L ∅ (∪)). reflexivity.
  - rewrite IH, dom_insert_L.
    rewrite (comm_L (∪) {[k]} (dom results)), (assoc_L (∪)). reflexivity.
Qed.

Lemma setAll_lookup_other (pairs : list (string * bool)) (id : string) :
  forall results : gmap string bool,
  id ∉ map fst pairs -> setAll results pairs !! id = results !! id.
Proof.
  unfold setAll. induction pairs as [|[k v] pairs IH]; intros results Hnin; simpl.
  - reflexivity.
  - simpl in Hnin. apply not_elem_of_cons in Hnin as [Hne Hnin].
    rewrite IH by assumption. apply lookup_insert_ne. congruence.
Qed.

Lemma setAll_lookup (pairs : list (string * bool)) (id : string) (b : bool) :
  forall results : gmap string bool,
  NoDup (map fst pairs) -> (id, b) ∈ pairs -> setAll results pairs !! id = Some b.
Proof.
  induction pairs as [|[k v] pairs IH]; intros results Hnd Hin.
  - apply elem_of_nil in Hin. contradiction.
  - simpl in Hnd. apply NoDup_cons in Hnd as [Hk Hnd].
    apply elem_of_cons in Hin as [Heq|Hin].
    + injection Heq as -> ->. change (setAll results ((k, v) :: pairs))
        with (setAll (<[k := v]> results) pairs).
      rewrite setAll_lookup_other by assumption. apply lookup_insert_eq.
    + change (setAll results ((k, v) :: pairs)) with (setAll (<[k := v]> results) pairs).
      apply IH; assumption.
Qed.

(** ** The shape of the batches *)

Lemma take_take_drop {A : Type} (l : list A) (a b : nat) :
  take a l ++ take b (drop a l) = take (a + b) l.
Proof.
  revert l. induction a as [|a IH]; intros l; simpl.
  - rewrite drop_0. reflexivity.
  - destruct l as [|x l]; simpl.
    + rewrite take_nil. reflexivity.
    + rewrite IH. reflexivity.
Qed.

Lemma concat_slices (u : list string) (n : nat) : forall k : nat,
  concat (map (fun j => slice u (5 * j) (5 * j + 5)) (seq k n)) = take (5 * n) (drop (5 * k) u).
Proof.
  induction n as [|n IH]; intros k; cbn [seq map concat].
  - rewrite Nat.mul_0_r. reflexivity.
  - rewrite IH. unfold slice.
    replace (5 * k + 5 - 5 * k)%nat with 5%nat by lia.
    replace (drop (5 * S k) u) with (drop 5 (drop (5 * k) u))
      by (rewrite drop_drop; f_equal; lia).
    rewrite take_take_drop. f_equal. lia.
Qed.

Lemma batchesOf_concat (u : list string) : concat (batchesOf u) = u.
Proof.
  unfold batchesOf. rewrite concat_slices. rewrite drop_0.
  apply take_ge. pose proof (batch_count_spec (length u)). lia.
Qed.

Lemma batchesOf_lookup (u : list string) (k : nat) (b : list string) :
  batchesOf u !! k = Some b ->
  b = slice u (5 * k) (5 * k + 5) /\ (5 * k < length u)%nat.
Proof.
  unfold batchesOf. intros H.
  apply list_lookup_fmap_Some in H as (j & Hb & Hj).
  apply lookup_seq in Hj as [-> Hlt]. simpl in Hb.
  split; [assumption|]. pose proof (batch_count_spec (length u)). lia.
Qed.

Lemma batchesOf_sizes (u : list string) (k : nat) (b : list string) :
  batchesOf u !! k = Some b ->
  (1 <= length b <= 5)%nat /\ ((S k < length (batchesOf u))%nat -> length b = 5%nat).
Proof.
  intros H. destruct (batchesOf_lookup u k b H) as [-> Hlt].
  unfold slice. rewrite length_take, length_drop.
  split; [lia|]. unfold batchesOf. rewrite length_map, length_seq.
  pose proof (batch_count_spec (length u)). lia.
Qed.

(** ** Strings *)

Lemma cleanNameOf_qualified (base suffix : string) :
  cleanNameOf (String.append base (String " " suffix)) = cleanNameOf base.
Proof.
  induction base as [|c base IH]; simpl; [reflexivity|].
  destruct (Ascii.eqb c " "); [reflexivity|]. rewrite IH. reflexivity.
Qed.

Lemma cleanNameOf_plain (s : string) : includes s " " = false -> cleanNameOf s = s.
Proof.
  induction s as [|c s IH]; [reflexivity|].
  cbn [includes cleanNameOf]. intros H. apply orb_false_elim in H as [Hp Hi].
  destruct (Ascii.eqb_spec c " ") as [->|Hne].
  - exfalso. revert Hp. simpl.
    destruct (ascii_dec " " " ") as [_|n]; [|contradiction]. destruct s; discriminate.
  - rewrite IH by assumption. reflexivity.
Qed.

Lemma prefix_same (s : string) : String.prefix s s = true.
Proof.
  induction s as [|c s IH]; simpl; [reflexivity|].
  destruct (ascii_dec c c); [assumption | contradiction].
Qed.

Lemma includes_same (s : string) : includes s s = true.
Proof. destruct s; simpl; [reflexivity|]. rewrite prefix_same. destruct (ascii_dec a a); [reflexivity|contradiction]. Qed.

Lemma known_has_In (x : string) : known_has x = true <-> In x KNOWN_VERIFIED_SNAP_PACKAGES.
Proof.
  unfold known_has. rewrite existsb_exists. split.
  - intros (y & Hy & Heq). apply String.eqb_eq in Heq. subst. assumption.
  - intros H. exists x. split; [assumption | apply String.eqb_refl].
Qed.

(** The containment rule of the specification is the one of the unfree
    detector: a package is unfree as soon as its cleaned name contains an
    entry of the table. *)
Lemma isUnfreePackage_contains (trim toLowerCase : string -> string) (pkg : string) :
  isUnfreePackage trim toLowerCase pkg = true <->
  exists unfree,
    In unfree KNOWN_UNFREE_PACKAGES /\ includes (toLowerCase (trim pkg)) unfree = true.
Proof.
  unfold isUnfreePackage. generalize (toLowerCase (trim pkg)). intros cleanPkg.
  destruct (existsb (String.eqb cleanPkg) KNOWN_UNFREE_PACKAGES) eqn:He.
  - split; [intros _ | reflexivity].
    apply existsb_exists in He as (y & Hy & Heq). apply String.eqb_eq in Heq. subst.
    exists y. split; [assumption | apply includes_same].
  - apply existsb_exists.
Qed.

(** ** What every run preserves *)

Section Preserves.

Variable R : World -> World -> Prop.
Hypothesis R_refl : forall w, R w w.
Hypothesis R_trans : forall w1 w2 w3, R w1 w2 -> R w2 w3 -> R w1 w3.

Lemma preserves_ret {A : Type} (a : A) : preserves R (Ret a).
Proof. intros net w. apply R_refl. Qed.

Lemma preserves_throw {A : Type} (e : Error) : preserves R (@Throw A e).
Proof. intros net w. apply R_refl. Qed.

Lemma preserves_out_of_fuel {A : Type} : preserves R (@OutOfFuel A).
Proof. intros net w. apply R_refl. Qed.

Lemma preserves_bind {A B : Type} (m : Async A) (f : A -> Async B) :
  preserves R m -> (forall a, preserves R (f a)) -> preserves R (bind m f).
Proof.
  intros Hm Hf net w. rewrite run_bind. pose proof (Hm net w) as H.
  destruct (run net m w) as [[a|e|] w1]; simpl in *; [|assumption|assumption].
  eapply R_trans; [exact H | apply Hf].
Qed.

Lemma preserves_try_catch {A : Type} (m : Async A) (h : Error -> Async A) :
  preserves R m -> (forall e, preserves R (h e)) -> preserves R (try_catch m h).
Proof.
  intros Hm Hh net w. rewrite run_try_catch. pose proof (Hm net w) as H.
  destruct (run net m w) as [[a|e|] w1]; simpl in *; [assumption| |assumption].
  eapply R_trans; [exact H | apply Hh].
Qed.

Lemma preserves_try_finally {A : Type} (m : Async A) (final : Async unit) :
  preserves R m -> preserves R final -> preserves R (try_finally m final).
Proof.
  intros Hm Hf net w. rewrite run_try_finally. pose proof (Hm net w) as H.
  destruct (run net m w) as [[a|e|] w1]; simpl in *; [| |assumption].
  - eapply R_trans; [exact H|].
    apply (preserves_bind final (fun _ => Ret a)); [exact Hf|].
    intros _. apply preserves_ret.
  - eapply R_trans; [exact H|].
    apply (preserves_bind final (fun _ => Throw e)); [exact Hf|].
    intros _. apply preserves_throw.
Qed.

Lemma preserves_update (f : World -> World) :
  (forall w, R w (f w)) -> preserves R (update f).
Proof. intros Hf net w. apply Hf. Qed.

Lemma preserves_read {A : Type} (f : World -> Async A) :
  (forall w0, preserves R (f w0)) -> preserves R (bind read f).
Proof. intros Hf net w. apply (Hf w net w). Qed.

Lemma preserves_fetch (req : Request) :
  (forall w, R w (log_request req w)) -> preserves R (fetch req).
Proof.
  intros Hl net w. unfold fetch. cbn [run].
  destruct (net (requests w) req); apply Hl.
Qed.

Lemma preserves_get_prop (v : JSValue) (p : string) : preserves R (get_prop v p).
Proof. destruct v; simpl; (apply preserves_ret || apply preserves_throw). Qed.

End Preserves.

Lemma sameSnapCache_refl (w : World) : sameSnapCache w w.
Proof. reflexivity. Qed.

Lemma sameSnapCache_trans (w1 w2 w3 : World) :
  sameSnapCache w1 w2 -> sameSnapCache w2 w3 -> sameSnapCache w1 w3.
Proof. unfold sameSnapCache. congruence. Qed.

Ltac same_cache :=
  repeat first
    [ apply preserves_ret; exact sameSnapCache_refl
    | apply preserves_throw; exact sameSnapCache_refl
    | apply preserves_out_of_fuel; exact sameSnapCache_refl
    | apply preserves_get_prop; exact sameSnapCache_refl
    | apply preserves_update; intros ?; reflexivity
    | apply preserves_fetch; intros ?; reflexivity
    | apply preserves_bind; [exact sameSnapCache_trans | | intros ?]
    | apply preserves_try_catch; [exact sameSnapCache_trans | | intros ?]
    | apply preserves_try_finally;
        [exact sameSnapCache_refl | exact sameSnapCache_trans | | ] ].

Lemma forHits_same_cache (s : SetRef) (items : list JSValue) :
  preserves sameSnapCache (forHits s items).
Proof.
  induction items as [|h rest IH]; cbn [forHits]; same_cache.
  - destruct (truthy a); same_cache.
  - destruct (truthy a0); same_cache.
  - exact IH.
Qed.

Section BulkPreserves.

Variable toNumberOther : JSValue -> option Q.

Lemma pagesLoop_same_cache (s : SetRef) :
  forall (fuel : nat) (page : Z) (hasMore : bool),
  preserves sameSnapCache (pagesLoop toNumberOther fuel s page hasMore).
Proof.
  induction fuel as [|fuel IH]; intros page hasMore; cbn [pagesLoop];
    destruct hasMore; same_cache.
  destruct (negb (ok a)); same_cache.
  - unfold json. destruct (body a); same_cache.
  - destruct a1; simpl; same_cache.
  - apply forHits_same_cache.
  - cbv zeta. destruct (page + 1 >? 10); same_cache. apply IH.
Qed.

Lemma fetchFlathub_same_cache (fuel : nat) :
  preserves sameSnapCache (fetchFlathubVerifiedApps toNumberOther fuel).
Proof.
  unfold fetchFlathubVerifiedApps. apply preserves_read.
  intros w0. destruct (flathubVerifiedCache w0); same_cache;
    apply pagesLoop_same_cache.
Qed.

Lemma mountEffect_same_cache (fuel : nat) :
  preserves sameSnapCache (mountEffect toNumberOther fuel).
Proof.
  unfold mountEffect. apply preserves_read.
  intros w0. destruct (fetchedRef (hook w0)); [same_cache|].
  apply preserves_bind; [exact sameSnapCache_trans | same_cache | intros _].
  unfold fetchVerificationData.
  apply preserves_try_finally;
    [exact sameSnapCache_refl | exact sameSnapCache_trans | | same_cache].
  apply preserves_try_catch; [exact sameSnapCache_trans | | intros e; same_cache].
  apply preserves_bind;
    [exact sameSnapCache_trans | apply fetchFlathub_same_cache | intros s; same_cache].
Qed.

End BulkPreserves.

(** ** Entries of the per-item cache *)

Lemma keepsEntries_refl (w : World) : keepsEntries w w.
Proof. intros id b H. exact H. Qed.

Lemma keepsEntries_trans (w1 w2 w3 : World) :
  keepsEntries w1 w2 -> keepsEntries w2 w3 -> keepsEntries w1 w3.
Proof. intros H1 H2 id b H. apply H2, H1, H. Qed.

Lemma sameSnapCache_keepsEntries (w w' : World) : sameSnapCache w w' -> keepsEntries w w'.
Proof. intros H id b Hb. rewrite H. exact Hb. Qed.

(** ** What an answer means *)

Lemma lookupFailed_verdict (answer : FetchResult) :
  lookupFailed answer = true -> snapVerdict answer = false.
Proof.
  destruct answer as [e|r]; simpl; [reflexivity|].
  destruct (ok r); simpl; [|reflexivity].
  destruct (body r) as [data|]; [|reflexivity].
  destruct data as [| |b|q|s|items|top]; simpl; try reflexivity.
  destruct (field "snap" top) as [| |b|q|s|items|snap]; simpl; try reflexivity.
  destruct (field "publisher" snap) as [| |b|q|s|items|publisher]; simpl; try reflexivity.
  destruct (field "validation" publisher); simpl; reflexivity || discriminate.
Qed.

(** ** The per-item fetch and the many-item fetch *)

Section PerItemProofs.

Variable isWellFormed : string -> bool.

Lemma run_fetchSnapVerification (net : Network) (snapName : string) (w : World) :
  run net (fetchSnapVerification isWellFormed snapName) w =
  (Returned (fst (snapStep isWellFormed net snapName w)), snd (snapStep isWellFormed net snapName w)).
Proof.
  unfold fetchSnapVerification, snapStep, encodeURIComponent. simpl.
  destruct (snapVerifiedCache w !! snapName) as [b|] eqn:Hc; simpl; [reflexivity|].
  destruct (isWellFormed (cleanNameOf snapName)); simpl; [|reflexivity].
  destruct (net (requests w) (snapRequest (cleanNameOf snapName))) as [e|r]; simpl;
    [reflexivity|].
  destruct (ok r) eqn:Hok; simpl; [|reflexivity].
  unfold json. destruct (body r) as [data|]; simpl; [|reflexivity].
  destruct data as [| |b|q|s|items|top]; simpl; try reflexivity.
  destruct (field "snap" top) as [| |b|q|s|items|snap]; simpl; try reflexivity.
  destruct (field "publisher" snap) as [| |b|q|s|items|publisher]; simpl; try reflexivity.
Qed.

Lemma run_mapM_fetchPair (net : Network) (pkgs : list string) : forall w : World,
  run net (mapM (fetchPair isWellFormed) pkgs) w =
  (Returned (fst (snapSteps isWellFormed net pkgs w)), snd (snapSteps isWellFormed net pkgs w)).
Proof.
  induction pkgs as [|pkg rest IH]; intros w; [reflexivity|].
  cbn [mapM snapSteps]. rewrite run_bind. unfold fetchPair at 1.
  rewrite run_bind, run_fetchSnapVerification. cbn [run].
  rewrite run_bind, IH. reflexivity.
Qed.

Lemma snapSteps_app (net : Network) (l1 l2 : list string) : forall w : World,
  snapSteps isWellFormed net (l1 ++ l2) w =
  (fst (snapSteps isWellFormed net l1 w) ++ fst (snapSteps isWellFormed net l2 (snd (snapSteps isWellFormed net l1 w))),
   snd (snapSteps isWellFormed net l2 (snd (snapSteps isWellFormed net l1 w)))).
Proof.
  induction l1 as [|x l1 IH]; intros w; simpl.
  - destruct (snapSteps isWellFormed net l2 w); reflexivity.
  - rewrite IH. reflexivity.
Qed.

Lemma snapStep_with_batches (net : Network) (pkg : string) (b : list (list string)) (w : World) :
  snapStep isWellFormed net pkg (with_batches b w) =
  (fst (snapStep isWellFormed net pkg w), with_batches b (snd (snapStep isWellFormed net pkg w))).
Proof.
  unfold snapStep. simpl.
  destruct (snapVerifiedCache w !! pkg); simpl; [reflexivity|].
  destruct (isWellFormed _); [destruct (snapThrows _)|]; reflexivity.
Qed.

Lemma snapSteps_with_batches (net : Network) (pkgs : list string) (b : list (list string)) :
  forall w : World,
  snapSteps isWellFormed net pkgs (with_batches b w) =
  (fst (snapSteps isWellFormed net pkgs w), with_batches b (snd (snapSteps isWellFormed net pkgs w))).
Proof.
  induction pkgs as [|pkg rest IH]; intros w; simpl; [reflexivity|].
  rewrite snapStep_with_batches. simpl. rewrite IH. reflexivity.
Qed.

Lemma run_batchLoop (net : Network) (u : list string) :
  forall (fuel k : nat) (results : gmap string bool) (w : World),
  ((length u + 4) / 5 - k <= fuel)%nat ->
  run net (batchLoop isWellFormed fuel u (5 * k) results) w =
  (Returned (setAll results (fst (snapSteps isWellFormed net (drop (5 * k) u) w))),
   with_batches
     (batches w ++
      map (fun j => slice u (5 * j) (5 * j + 5)) (seq k ((length u + 4) / 5 - k)))
     (snd (snapSteps isWellFormed net (drop (5 * k) u) w))).
Proof.
  pose proof (batch_count_spec (length u)) as Hcount.
  set (c := ((length u + 4) / 5)%nat) in *. clearbody c.
  induction fuel as [|fuel IH]; intros k results w Hfuel.
  - assert (Hk : (length u <= 5 * k)%nat) by lia.
    assert (Hz : (c - k = 0)%nat) by lia.
    rewrite Hz. cbn [batchLoop].
    destruct (5 * k <? length u)%nat eqn:Hlt; [apply Nat.ltb_lt in Hlt; lia|].
    rewrite drop_ge by lia. simpl. rewrite app_nil_r, with_batches_same. reflexivity.
  - cbn [batchLoop].
    destruct (5 * k <? length u)%nat eqn:Hlt.
    + apply Nat.ltb_lt in Hlt.
      assert (Hc : (c - k = S (c - S k))%nat) by lia.
      rewrite Hc. cbn [seq map].
      rewrite run_bind. unfold promise_all_map. rewrite run_bind. cbn [update run].
      rewrite run_mapM_fetchPair.
      replace (5 * k + BATCH_SIZE)%nat with (5 * S k)%nat by (unfold BATCH_SIZE; lia).
      rewrite IH by lia.
      unfold slice. replace (5 * S k - 5 * k)%nat with 5%nat by lia.
      replace (5 * k + 5 - 5 * k)%nat with 5%nat by lia.
      set (batch := take 5 (drop (5 * k) u)).
      assert (Hsplit : drop (5 * k) u = batch ++ drop (5 * S k) u).
      { subst batch. replace (5 * S k)%nat with (5 * k + 5)%nat by lia.
        rewrite <- drop_drop. symmetry. apply take_drop. }
      rewrite Hsplit, snapSteps_app.
      rewrite !snapSteps_with_batches. cbn [fst snd].
      unfold setAll. rewrite fold_left_app.
      rewrite (snapSteps_with_batches net (drop (5 * S k) u)). cbn [fst snd].
      f_equal. rewrite with_batches_twice. unfold with_batches at 2. cbn [batches].
      rewrite <- app_assoc. reflexivity.
    + apply Nat.ltb_ge in Hlt.
      assert (Hz : (c - k = 0)%nat) by lia.
      rewrite Hz. rewrite drop_ge by lia. simpl.
      rewrite app_nil_r, with_batches_same. reflexivity.
Qed.

Lemma snapSteps_keys (net : Network) (pkgs : list string) : forall w : World,
  map fst (fst (snapSteps isWellFormed net pkgs w)) = pkgs.
Proof.
  induction pkgs as [|pkg rest IH]; intros w; simpl; [reflexivity|].
  rewrite IH. reflexivity.
Qed.




Section Later.

Variable toNumberOther : JSValue -> option Q.



End Later.

Lemma snapStep_cache (net : Network) (pkg : string) (w : World) :
  snapVerifiedCache (snd (snapStep isWellFormed net pkg w)) =
  match snapVerifiedCache w !! pkg with
  | Some _ => snapVerifiedCache w
  | None => <[pkg := fst (snapStep isWellFormed net pkg w)]> (snapVerifiedCache w)
  end.
Proof.
  unfold snapStep. destruct (snapVerifiedCache w !! pkg); [reflexivity|].
  cbn [fst snd]. destruct (isWellFormed _); [destruct (snapThrows _)|]; reflexivity.
Qed.

Lemma snapStep_answer_cached (net : Network) (pkg : string) (w : World) :
  snapVerifiedCache (snd (snapStep isWellFormed net pkg w)) !! pkg = Some (fst (snapStep isWellFormed net pkg w)).
Proof.
  unfold snapStep.
  destruct (snapVerifiedCache w !! pkg) as [b|] eqn:Hc; cbn [fst snd]; [exact Hc|].
  destruct (isWellFormed _); [destruct (snapThrows _)|]; apply lookup_insert_eq.
Qed.

Lemma snapStep_keepsEntries (net : Network) (pkg : string) (w : World) :
  keepsEntries w (snd (snapStep isWellFormed net pkg w)).
Proof.
  intros id b Hb. rewrite snapStep_cache.
  destruct (snapVerifiedCache w !! pkg) as [c|] eqn:Hc; [exact Hb|].
  rewrite lookup_insert_ne; [exact Hb|]. intros ->. congruence.
Qed.

Lemma snapStep_other (net : Network) (pkg other : string) (w : World) :
  pkg <> other ->
  snapVerifiedCache (snd (snapStep isWellFormed net pkg w)) !! other = snapVerifiedCache w !! other.
Proof.
  intros Hne. rewrite snapStep_cache.
  destruct (snapVerifiedCache w !! pkg); [reflexivity|].
  apply lookup_insert_ne. exact Hne.
Qed.

Lemma snapSteps_keepsEntries (net : Network) (pkgs : list string) : forall w : World,
  keepsEntries w (snd (snapSteps isWellFormed net pkgs w)).
Proof.
  induction pkgs as [|pkg rest IH]; intros w; cbn [snapSteps snd].
  - apply keepsEntries_refl.
  - eapply keepsEntries_trans; [apply snapStep_keepsEntries | apply IH].
Qed.

Lemma batchLoop_keepsEntries (net : Network) (u : list string) :
  forall (fuel i : nat) (results : gmap string bool) (w : World),
  keepsEntries w (snd (run net (batchLoop isWellFormed fuel u i results) w)).
Proof.
  induction fuel as [|fuel IH]; intros i results w; cbn [batchLoop];
    destruct (i <? length u)%nat; try apply keepsEntries_refl.
  rewrite run_bind. unfold promise_all_map. rewrite run_bind. cbn [update run].
  rewrite run_mapM_fetchPair.
  eapply keepsEntries_trans; [|apply IH].
  rewrite snapSteps_with_batches. cbn [snd].
  intros id b Hb. apply (snapSteps_keepsEntries net _ w id b Hb).
Qed.

Lemma perform_keepsEntries (toNumberOther : JSValue -> option Q) (net : Network)
    (c : Call) (w : World) :
  keepsEntries w (snd (run net (perform toNumberOther isWellFormed c) w)).
Proof.
  destruct c as [fuel|snapName|fuel pkgs|fuel]; cbn [perform].
  - apply sameSnapCache_keepsEntries.
    apply (preserves_bind sameSnapCache sameSnapCache_trans
             (fetchFlathubVerifiedApps toNumberOther fuel) (fun _ => Ret tt)).
    + apply fetchFlathub_same_cache.
    + intros _. apply preserves_ret. exact sameSnapCache_refl.
  - rewrite run_bind, run_fetchSnapVerification. apply snapStep_keepsEntries.
  - rewrite run_bind. unfold fetchAllSnapVerifications.
    pose proof (batchLoop_keepsEntries net (uniqueOf pkgs) fuel 0 ∅ w) as H.
    destruct (run net (batchLoop isWellFormed fuel (uniqueOf pkgs) 0 ∅) w) as [[m|e|] w1]; exact H.
  - apply sameSnapCache_keepsEntries. apply mountEffect_same_cache.
Qed.

Lemma snapStep_requests (net : Network) (pkg : string) (w : World) :
  requests (snd (snapStep isWellFormed net pkg w)) =
  requests w ++ (if asksFor isWellFormed w pkg then [snapRequest (cleanNameOf pkg)] else []).
Proof.
  unfold snapStep, asksFor, uncached.
  destruct (snapVerifiedCache w !! pkg); cbn [snd andb].
  - rewrite app_nil_r. reflexivity.
  - destruct (isWellFormed _); [destruct (snapThrows _); reflexivity|].
    cbn. rewrite app_nil_r. reflexivity.
Qed.

Lemma snapSteps_requests (net : Network) (pkgs : list string) : forall w : World,
  NoDup pkgs ->
  requests (snd (snapSteps isWellFormed net pkgs w)) =
  requests w ++
  map (fun p => snapRequest (cleanNameOf p)) (List.filter (asksFor isWellFormed w) pkgs).
Proof.
  induction pkgs as [|pkg rest IH]; intros w Hnd; cbn [snapSteps snd List.filter].
  - rewrite app_nil_r. reflexivity.
  - apply NoDup_cons in Hnd as [Hnin Hnd].
    rewrite IH by exact Hnd. rewrite snapStep_requests.
    assert (Hsame : List.filter (asksFor isWellFormed (snd (snapStep isWellFormed net pkg w))) rest
                    = List.filter (asksFor isWellFormed w) rest).
    { apply List.filter_ext_in. intros p Hp. unfold asksFor, uncached.
      rewrite snapStep_other; [reflexivity|].
      intros ->. apply Hnin. apply list_elem_of_In. exact Hp. }
    rewrite Hsame.
    destruct (asksFor isWellFormed w pkg); cbn [map]; rewrite <- app_assoc; reflexivity.
Qed.

Lemma snapSteps_all_cached (net : Network) (pkgs : list string) : forall w : World,
  Forall (fun p => uncached w p = false) pkgs ->
  snapSteps isWellFormed net pkgs w =
  (map (fun p => (p, default false (snapVerifiedCache w !! p))) pkgs, w).
Proof.
  induction pkgs as [|pkg rest IH]; intros w Hall; cbn [snapSteps map]; [reflexivity|].
  apply Forall_cons in Hall as [Hp Hrest].
  assert (Hstep : snapStep isWellFormed net pkg w = (default false (snapVerifiedCache w !! pkg), w)).
  { unfold snapStep. unfold uncached in Hp.
    destruct (snapVerifiedCache w !! pkg); [reflexivity | discriminate]. }
  rewrite Hstep. cbn [fst snd]. rewrite IH by exact Hrest. reflexivity.
Qed.

Lemma snapSteps_pairs_from_cache (net : Network) (pkgs : list string) : forall w : World,
  fst (snapSteps isWellFormed net pkgs w) =
  map (fun p => (p, default false (snapVerifiedCache (snd (snapSteps isWellFormed net pkgs w)) !! p))) pkgs.
Proof.
  induction pkgs as [|pkg rest IH]; intros w; cbn [snapSteps fst snd map]; [reflexivity|].
  f_equal; [|apply IH].
  rewrite (snapSteps_keepsEntries net rest _ pkg _ (snapStep_answer_cached net pkg w)).
  reflexivity.
Qed.

Lemma snapSteps_final_cached (net : Network) (pkgs : list string) (w : World) :
  Forall (fun p => uncached (snd (snapSteps isWellFormed net pkgs w)) p = false) pkgs.
Proof.
  revert w. induction pkgs as [|pkg rest IH]; intros w; cbn [snapSteps snd]; constructor.
  - unfold uncached.
    rewrite (snapSteps_keepsEntries net rest _ pkg _ (snapStep_answer_cached net pkg w)).
    reflexivity.
  - apply IH.
Qed.

Lemma snapStep_again (net net' : Network) (pkg : string) (w : World) :
  snapStep isWellFormed net' pkg (snd (snapStep isWellFormed net pkg w)) =
  (fst (snapStep isWellFormed net pkg w), snd (snapStep isWellFormed net pkg w)).
Proof.
  pose proof (snapStep_answer_cached net pkg w) as H.
  set (r := snapStep isWellFormed net pkg w) in *. unfold snapStep. rewrite H. reflexivity.
Qed.

Lemma run_fetchAll (net : Network) (w : World) (ids : list string) (extra : nat) :
  run net (fetchAllSnapVerifications isWellFormed (length ids + extra) ids) w =
  (Returned (setAll ∅ (fst (snapSteps isWellFormed net (uniqueOf ids) w))),
   with_batches (batches w ++ batchesOf (uniqueOf ids))
     (snd (snapSteps isWellFormed net (uniqueOf ids) w))).
Proof.
  unfold fetchAllSnapVerifications. set (u := uniqueOf ids).
  pose proof (batch_count_spec (length u)) as Hcount.
  pose proof (uniqueOf_length ids) as Hlen. fold u in Hlen.
  change 0%nat with (5 * 0)%nat at 1.
  rewrite run_batchLoop by lia.
  rewrite Nat.sub_0_r. reflexivity.
Qed.

Lemma snapSteps_fetchedInTurn (net : Network) (pkgs : list string) : forall w : World,
  fetchedInTurn isWellFormed net pkgs w
    (fst (snapSteps isWellFormed net pkgs w)) (snd (snapSteps isWellFormed net pkgs w)).
Proof.
  induction pkgs as [|pkg rest IH]; intros w; cbn [snapSteps fetchedInTurn fst snd];
    [reflexivity|].
  split; [reflexivity|]. eexists. split; [apply run_fetchSnapVerification | apply IH].
Qed.

End PerItemProofs.

(** * The claims *)

(** C1 (the code departs from the claim). When the bulk endpoint answers the
    request for page 1 with a non-success status, the mount transition
    completes without raising, [flathubLoaded] and [snapLoaded] are set,
    [isLoading] is cleared and no flatpak identifier is verified; but
    [hasError] is left [false], where the claim says it is set. *)
Theorem C1_bulk_failure_leaves_hasError_unset
    (toNumberOther : JSValue -> option Q) (net : Network) (w : World)
    (r : Response) (fuel : nat) :
  hook w = initialHook ->
  flathubVerifiedCache w = None ->
  net (requests w) (flathubRequest 1) = Responded r ->
  ok r = false ->
  exists w',
    run net (mountEffect toNumberOther (S fuel)) w = (Returned tt, w') /\
    hasError (hook w') = false /\
    flathubLoaded (hook w') = true /\
    snapLoaded (hook w') = true /\
    isLoading (hook w') = false /\
    forall id, isVerified w' "flatpak" id = false.
Proof.
  intros Hhook Hcache Hnet Hok.
  unfold mountEffect, read. cbn [bind run]. rewrite Hhook. cbn [fetchedRef initialHook].
  unfold setFetchedRef, update. cbn [bind run].
  unfold fetchVerificationData. rewrite run_try_finally, run_try_catch, run_bind.
  rewrite run_fetchFlathub_fresh by exact Hcache.
  rewrite (run_pagesLoop_error_status toNumberOther net fuel _ 1 _ r) by assumption.
  eexists. split; [reflexivity|]. cbn. rewrite Hhook. cbn.
  do 4 (split; [reflexivity|]).
  intros id. unfold isVerified, isFlathubVerified, set_has. cbn.
  rewrite lookup_app_r by reflexivity. rewrite Nat.sub_diag. reflexivity.
Qed.

Lemma C1_bulk_failure_witness :
  exists w',
    run failingNetwork (mountEffect noCoercion 10) initialWorld = (Returned tt, w') /\
    hasError (hook w') = false /\
    flathubLoaded (hook w') = true /\
    snapLoaded (hook w') = true /\
    isLoading (hook w') = false /\
    forall id, isVerified w' "flatpak" id = false.
Proof.
  apply (C1_bulk_failure_leaves_hasError_unset noCoercion failingNetwork initialWorld
           serverError 9); reflexivity.
Defined.

(** C2 (as amended). The source-B lookup consults the Static Trust Table by
    exact match on the canonical identifier, the part of the identifier
    before its first space: the canonical identifier is present exactly when
    it is an entry of the table. [isSnapVerified] answers [true] exactly in
    three cases: the canonical identifier is an entry of the table; or the
    per-item cache holds [true] under the canonical identifier; or the
    per-item cache has no entry under the canonical identifier and holds
    [true] under the identifier as it was given. Containing an entry as a
    substring does not make an identifier present. *)
Theorem C2_static_table_is_exact_match (w : World) (id : string) :
  (known_has (cleanNameOf id) = true <-> In (cleanNameOf id) KNOWN_VERIFIED_SNAP_PACKAGES) /\
  (isSnapVerified w id = true <->
     In (cleanNameOf id) KNOWN_VERIFIED_SNAP_PACKAGES \/
     snapVerifiedCache w !! cleanNameOf id = Some true \/
     (snapVerifiedCache w !! cleanNameOf id = None /\ snapVerifiedCache w !! id = Some true)).
Proof.
  split; [apply known_has_In|].
  unfold isSnapVerified. rewrite <- known_has_In.
  destruct (known_has (cleanNameOf id)).
  - split; auto.
  - destruct (snapVerifiedCache w !! cleanNameOf id) as [[|]|].
    + split; auto.
    + split; [discriminate|]. intros [H|[H|[H _]]]; discriminate.
    + destruct (snapVerifiedCache w !! id) as [[|]|].
      * split; auto.
      * split; [discriminate|]. intros [H|[H|[_ H]]]; discriminate.
      * split; [discriminate|]. intros [H|[H|[_ H]]]; discriminate.
Qed.

(** C2, counterexample: ["golang-go"] contains the table entry ["go"], yet
    the source-B query does not consider it verified. *)
Lemma C2_substring_is_not_enough :
  In "go" KNOWN_VERIFIED_SNAP_PACKAGES /\
  includes "golang-go" "go" = true /\
  snapLoaded (hook degradedWorld) = true /\
  isSnapVerified degradedWorld "golang-go" = false /\
  isVerified degradedWorld "snap" "golang-go" = false.
Proof.
  split; [apply known_has_In; reflexivity|].
  vm_compute. repeat split; reflexivity.
Qed.

(** C3 (as amended). For every [base], [suffix] and state,
    [isVerified('snap', base + ' ' + suffix)] and [isVerified('snap', base)]
    agree exactly when the snap source is not loaded, or the canonical
    identifier of [base] is an entry of the Static Trust Table, or the
    per-item cache has an entry under that canonical identifier, or the
    entries of the per-item cache under [base + ' ' + suffix] and under
    [base] give the same answer, a missing entry counting as [false]. So
    they agree for every table name in every state, and whenever neither of
    the two queried names is a key of the per-item cache. *)
Theorem C3_qualifier_is_stripped (w : World) (base suffix : string) :
  isVerified w "snap" (String.append base (String " " suffix)) = isVerified w "snap" base
  <->
  snapLoaded (hook w) = false \/
  known_has (cleanNameOf base) = true \/
  snapVerifiedCache w !! cleanNameOf base <> None \/
  default false (snapVerifiedCache w !! String.append base (String " " suffix)) =
    default false (snapVerifiedCache w !! base).
Proof.
  unfold isVerified. cbn [String.eqb Ascii.eqb Bool.eqb andb].
  destruct (snapLoaded (hook w)); [|split; [left|]; reflexivity].
  unfold isSnapVerified. rewrite cleanNameOf_qualified.
  destruct (known_has (cleanNameOf base)); [split; [right; left|]; reflexivity|].
  destruct (snapVerifiedCache w !! cleanNameOf base) as [b|];
    [split; [intros _; right; right; left; discriminate | reflexivity]|].
  destruct (snapVerifiedCache w !! String.append base (String " " suffix)) as [q|],
           (snapVerifiedCache w !! base) as [p|]; cbn [default from_option id];
    (split; [intros H; right; right; right; exact H|]);
    (intros [H|[H|[H|H]]]; [discriminate H | discriminate H | contradiction H; reflexivity | exact H]).
Qed.

(** C3, counterexample: a per-item fetch made with a qualified name leaves
    its verdict under that very name, after which the qualified and the
    bare identifier are answered differently. *)
Lemma C3_qualified_key_breaks_normalization :
  let w := snd (run snapStore (fetchSnapVerification wellFormedNames "foo --classic")
                  degradedWorld) in
  isVerified w "snap" (String.append "foo" (String " " "--classic")) = true /\
  isVerified w "snap" "foo" = false.
Proof. vm_compute. split; reflexivity. Qed.

(** C4 (as amended). The per-item fetch consults and updates the cache under
    the identifier as it was given; the canonical identifier only names the
    resource that is requested. A cached identifier is answered from the
    cache, with no request and no change of state. Otherwise the verdict is
    stored under the identifier as given: when the canonical identifier is
    well formed, exactly one request is issued, for the canonical
    identifier; when it is not, escaping it for the URL throws, so that no
    request is issued, a warning is logged and the verdict is [false]. A
    later call for the same identifier, once the first has completed, is
    answered with the stored verdict and changes nothing. *)
Theorem C4_cache_is_keyed_by_the_given_name
    (isWellFormed : string -> bool) (net : Network) (w : World) (id : string) :
  match snapVerifiedCache w !! id with
  | Some cached => run net (fetchSnapVerification isWellFormed id) w = (Returned cached, w)
  | None =>
      exists b w',
        run net (fetchSnapVerification isWellFormed id) w = (Returned b, w') /\
        snapVerifiedCache w' = <[id := b]> (snapVerifiedCache w) /\
        (if isWellFormed (cleanNameOf id)
         then requests w' = requests w ++ [snapRequest (cleanNameOf id)]
         else requests w' = requests w /\ b = false /\
              console w' = console w ++ [ConsoleWarn "Failed to fetch Snap verification"]) /\
        (forall net', run net' (fetchSnapVerification isWellFormed id) w' = (Returned b, w'))
  end.
Proof.
  rewrite run_fetchSnapVerification.
  destruct (snapVerifiedCache w !! id) as [cached|] eqn:Hc.
  { unfold snapStep. rewrite Hc. reflexivity. }
  eexists _, _. split; [reflexivity|]. split.
  { rewrite snapStep_cache, Hc. reflexivity. }
  split.
  { unfold snapStep. rewrite Hc.
    destruct (isWellFormed (cleanNameOf id));
      [destruct (snapThrows _); reflexivity | repeat split; reflexivity]. }
  intros net'. rewrite run_fetchSnapVerification, snapStep_again. reflexivity.
Qed.

(** C4, counterexample: two fetches whose inputs differ only in the
    qualifier have the same canonical identifier, yet each issues a request
    and each fills a cache entry of its own. *)
Lemma C4_qualifier_defeats_the_cache :
  let w := snd (run snapStore
                  (fetchSnapVerification wellFormedNames "code --classic" ;;;
                   fetchSnapVerification wellFormedNames "code")
                  initialWorld) in
  cleanNameOf "code --classic" = cleanNameOf "code" /\
  requests w = [snapRequest "code"; snapRequest "code"] /\
  snapVerifiedCache w !! "code --classic" = Some true /\
  snapVerifiedCache w !! "code" = Some true /\
  size (snapVerifiedCache w) = 2%nat.
Proof. vm_compute. repeat split; reflexivity. Qed.

(** C4, the escaping fails: for a name that is not well formed no request
    is sent; the fetch logs a warning, stores [false] under the name as it
    was given and returns [false], whatever the endpoint would have said. *)
Lemma C4_unencodable_name_sends_no_request :
  let r := run snapStore (fetchSnapVerification allButBad "bad --classic") initialWorld in
  fst r = Returned false /\
  requests (snd r) = [] /\
  snapVerifiedCache (snd r) !! "bad --classic" = Some false /\
  console (snd r) = [ConsoleWarn "Failed to fetch Snap verification"].
Proof. vm_compute. repeat split; reflexivity. Qed.



(** C6. Against any network, a bulk fetch returns, and the requests it has
    issued are those for pages 1, 2, ..., n in this order, each asking for 250
    items per page, with n at most 10. *)
Theorem C6_pagination_stops_within_ten_pages
    (toNumberOther : JSValue -> option Q) (net : Network) (w : World) (extra : nat) :
  exists s w' n,
    run net (fetchFlathubVerifiedApps toNumberOther (10 + extra)) w = (Returned s, w') /\
    (n <= 10)%nat /\
    requests w' = requests w ++ map (fun i => flathubRequest (Z.of_nat i)) (seq 1 n) /\
    map endpoint (map (fun i => flathubRequest (Z.of_nat i)) (seq 1 n)) =
      map (fun i => FlathubVerified (Z.of_nat i) 250) (seq 1 n).
Proof.
  destruct (fetchFlathub_completes toNumberOther net (10 + extra) w)
    as (s & w' & n & Hrun & _ & Hn & Hreq & _); [lia|].
  exists s, w', n. split; [exact Hrun|]. split; [exact Hn|]. split.
  - rewrite Hreq. f_equal. unfold pageRequests.
    rewrite <- seq_shift, map_map. apply map_ext. intros i. f_equal. lia.
  - rewrite map_map. reflexivity.
Qed.

(** C6, the bound is reached: a source that always reports more pages is
    asked for pages 1 to 10 and no further. *)
Lemma C6_endless_source_is_asked_ten_pages :
  let r := run endlessPages (fetchFlathubVerifiedApps noCoercion 10) initialWorld in
  fst r = Returned 0%nat /\
  map endpoint (requests (snd r)) =
    map (fun i => FlathubVerified (Z.of_nat i) 250) (seq 1 10).
Proof. vm_compute. split; reflexivity. Qed.

(** C7. The per-item fetch always returns; and when the identifier is not
    cached and the remote lookup fails (transport error, non-success status,
    unreadable body or payload of another shape), it returns [false] and
    records [false] in the cache under the identifier it was given. *)
Theorem C7_per_item_failure_is_recorded_false
    (isWellFormed : string -> bool) (net : Network) (w : World) (id : string) :
  (exists b w', run net (fetchSnapVerification isWellFormed id) w = (Returned b, w')) /\
  (snapVerifiedCache w !! id = None ->
   lookupFailed (net (requests w) (snapRequest (cleanNameOf id))) = true ->
   exists w',
     run net (fetchSnapVerification isWellFormed id) w = (Returned false, w') /\
     snapVerifiedCache w' = <[id := false]> (snapVerifiedCache w)).
Proof.
  rewrite run_fetchSnapVerification. split; [eauto|].
  intros Hc Hfail. unfold snapStep. rewrite Hc.
  rewrite (lookupFailed_verdict _ Hfail).
  destruct (isWellFormed (cleanNameOf id)); [destruct (snapThrows _)|];
    eexists; split; reflexivity.
Qed.

Lemma C7_per_item_failure_witness :
  exists w',
    run failingNetwork (fetchSnapVerification wellFormedNames "code --classic") initialWorld
      = (Returned false, w') /\
    snapVerifiedCache w' = <["code --classic" := false]> (snapVerifiedCache initialWorld).
Proof.
  apply (C7_per_item_failure_is_recorded_false wellFormedNames failingNetwork initialWorld
           "code --classic"); reflexivity.
Defined.

(** C8. The many-item fetch works on the distinct identifiers of its input,
    in the order of their first occurrence; it hands them to [Promise.all]
    in consecutive batches of five, the last one possibly smaller; and it
    returns the map whose keys are exactly the distinct identifiers, each
    bound to the verdict that [fetchSnapVerification] returns for it when
    the identifiers are fetched in that order, which is also the verdict
    that the per-item cache holds for it afterwards. *)
Theorem C8_many_item_fetch_batches_by_five
    (isWellFormed : string -> bool) (net : Network) (w : World) (ids : list string)
    (extra : nat) :
  exists pairs w',
    NoDup (uniqueOf ids) /\
    (forall x, x ∈ uniqueOf ids <-> x ∈ ids) /\
    fetchedInTurn isWellFormed net (uniqueOf ids) w pairs w' /\
    map fst pairs = uniqueOf ids /\
    run net (fetchAllSnapVerifications isWellFormed (length ids + extra) ids) w =
      (Returned (setAll ∅ pairs),
       with_batches (batches w ++ batchesOf (uniqueOf ids)) w') /\
    dom (setAll ∅ pairs) = list_to_set ids /\
    (forall id b, setAll ∅ pairs !! id = Some b <-> (id, b) ∈ pairs) /\
    (forall id b, setAll ∅ pairs !! id = Some b -> snapVerifiedCache w' !! id = Some b) /\
    concat (batchesOf (uniqueOf ids)) = uniqueOf ids /\
    (forall k batch, batchesOf (uniqueOf ids) !! k = Some batch ->
       (1 <= length batch <= 5)%nat /\
       ((S k < length (batchesOf (uniqueOf ids)))%nat -> length batch = 5%nat)).
Proof.
  set (u := uniqueOf ids).
  exists (fst (snapSteps isWellFormed net u w)), (snd (snapSteps isWellFormed net u w)).
  assert (Hkeys : map fst (fst (snapSteps isWellFormed net u w)) = u) by apply snapSteps_keys.
  assert (Hdom : dom (setAll ∅ (fst (snapSteps isWellFormed net u w))) = list_to_set ids).
  { rewrite setAll_dom, Hkeys, dom_empty_L, (left_id_L ∅ (∪)).
    apply set_eq. intros x. rewrite !elem_of_list_to_set. apply uniqueOf_elem. }
  assert (Hnd : NoDup (map fst (fst (snapSteps isWellFormed net u w)))).
  { rewrite Hkeys. apply uniqueOf_NoDup. }
  assert (Hpairs : forall id b,
            setAll ∅ (fst (snapSteps isWellFormed net u w)) !! id = Some b ->
            (id, b) ∈ fst (snapSteps isWellFormed net u w)).
  { intros id b Hm.
    assert (Hin : id ∈ map fst (fst (snapSteps isWellFormed net u w))).
    { assert (Hd : id ∈ dom (setAll ∅ (fst (snapSteps isWellFormed net u w))))
        by (apply elem_of_dom; eauto).
      rewrite setAll_dom, dom_empty_L, (left_id_L ∅ (∪)) in Hd.
      apply elem_of_list_to_set in Hd. exact Hd. }
    apply list_elem_of_fmap in Hin as ([id' b'] & -> & Hin). simpl in Hm.
    rewrite (setAll_lookup _ id' b' ∅ Hnd Hin) in Hm.
    injection Hm as <-. exact Hin. }
  split; [apply uniqueOf_NoDup|].
  split; [apply uniqueOf_elem|].
  split; [apply snapSteps_fetchedInTurn|].
  split; [exact Hkeys|].
  split; [apply run_fetchAll|].
  split; [exact Hdom|].
  split.
  { intros id b. split; [apply Hpairs | apply setAll_lookup; exact Hnd]. }
  split.
  { intros id b Hm. apply Hpairs in Hm.
    rewrite snapSteps_pairs_from_cache in Hm.
    apply list_elem_of_fmap in Hm as (p & Heq & Hp). injection Heq as -> ->.
    pose proof (snapSteps_final_cached isWellFormed net u w) as Hall.
    rewrite Forall_forall in Hall. specialize (Hall p Hp). unfold uncached in Hall.
    destruct (snapVerifiedCache (snd (snapSteps isWellFormed net u w)) !! p);
      [reflexivity | discriminate]. }
  split; [apply batchesOf_concat|].
  intros k batch. apply batchesOf_sizes.
Qed.

(** C8, the scenario of the specification: twelve distinct identifiers go
    through three batches of sizes 5, 5 and 2, and the map has twelve keys. *)
Lemma C8_twelve_identifiers_three_batches :
  let r := run snapStore (fetchAllSnapVerifications wellFormedNames 12 twelve) initialWorld in
  map length (batches (snd r)) = [5; 5; 2]%nat /\
  concat (batches (snd r)) = twelve /\
  match fst r with
  | Returned results => size results = 12%nat
  | _ => False
  end.
Proof. vm_compute. repeat split; reflexivity. Qed.

(** C9. While the loaded flag of the source is unset (and, for source A,
    also while the bulk cache is unset), [isVerified] answers [false] and
    [getVerificationType] answers null. Both queries are total functions of
    the state: they neither wait nor throw. *)
Theorem C9_queries_before_loading_answer_no (w : World) (distro : DistroId) (id : string) :
  (distro = "flatpak" -> flathubLoaded (hook w) = false \/ flathubVerifiedCache w = None) ->
  (distro = "snap" -> snapLoaded (hook w) = false) ->
  isVerified w distro id = false /\ getVerificationType w distro id = None.
Proof.
  intros Hflatpak Hsnap. unfold isVerified, getVerificationType, isFlathubVerified.
  destruct (String.eqb_spec distro "flatpak") as [->|_].
  - cbn [String.eqb Ascii.eqb Bool.eqb andb].
    destruct (Hflatpak eq_refl) as [H|H]; rewrite H.
    + split; reflexivity.
    + destruct (flathubLoaded (hook w)); split; reflexivity.
  - cbn [andb]. destruct (String.eqb_spec distro "snap") as [->|_].
    + rewrite (Hsnap eq_refl). split; reflexivity.
    + split; reflexivity.
Qed.

Lemma C9_queries_before_loading_witness :
  isVerified initialWorld "snap" "firefox" = false /\
  getVerificationType initialWorld "snap" "firefox" = None.
Proof.
  apply (C9_queries_before_loading_answer_no initialWorld "snap" "firefox").
  - intros H. discriminate H.
  - intros _. reflexivity.
Defined.

(** C10. In every state, [getVerificationType] answers a tag exactly when
    [isVerified] answers [true]; the tag is ['flathub'] exactly when the
    distro is ['flatpak'], ['snap'] exactly when it is ['snap'], and there is
    no other tag. *)
Theorem C10_type_agrees_with_isVerified (w : World) (distro : DistroId) (id : string) :
  (getVerificationType w distro id <> None <-> isVerified w distro id = true) /\
  (getVerificationType w distro id = Some "flathub" <->
     distro = "flatpak" /\ isVerified w distro id = true) /\
  (getVerificationType w distro id = Some "snap" <->
     distro = "snap" /\ isVerified w distro id = true) /\
  (getVerificationType w distro id = None \/
   getVerificationType w distro id = Some "flathub" \/
   getVerificationType w distro id = Some "snap").
Proof.
  unfold isVerified, getVerificationType.
  destruct (String.eqb_spec distro "flatpak") as [->|Hf].
  - cbn [String.eqb Ascii.eqb Bool.eqb andb].
    destruct (flathubLoaded (hook w)); cbn [andb];
      [destruct (isFlathubVerified w id)|];
      (split; [split; [intros H; first [reflexivity | contradiction] | intros H; discriminate] |]);
      (split; [split; [intros H; first [split; reflexivity | discriminate]
                      | intros [_ H]; first [reflexivity | discriminate]] |]);
      (split; [split; [intros H; discriminate | intros [H _]; discriminate] | auto]).
  - cbn [andb]. destruct (String.eqb_spec distro "snap") as [->|Hs].
    + destruct (snapLoaded (hook w)); cbn [andb];
        [destruct (isSnapVerified w id)|];
        (split; [split; [intros H; first [reflexivity | contradiction] | intros H; discriminate] |]);
        (split; [split; [intros H; discriminate | intros [H _]; discriminate] |]);
        (split; [split; [intros H; first [split; reflexivity | discriminate]
                        | intros [_ H]; first [reflexivity | discriminate]] | auto]).
    + cbn [andb].
      split; [split; [intros H; contradiction | intros H; discriminate] |].
      split; [split; [intros H; discriminate | intros [H _]; contradiction] |].
      split; [split; [intros H; discriminate | intros [H _]; contradiction] | auto].
Qed.

(** * Properties of the code beyond the specification's claims *)

(** X1. A per-item verdict is final: once [fetchSnapVerification] has
    answered for an identifier, a second call for the same identifier,
    against any network, returns the same verdict and changes nothing; in
    particular it sends no request. *)
Theorem X1_per_item_verdict_is_final
    (isWellFormed : string -> bool) (net net' : Network) (w : World) (id : string) :
  run net' (fetchSnapVerification isWellFormed id)
    (snd (run net (fetchSnapVerification isWellFormed id) w))
  = run net (fetchSnapVerification isWellFormed id) w.
Proof.
  rewrite !run_fetchSnapVerification. cbn [snd].
  rewrite snapStep_again. reflexivity.
Qed.

(** X2. An entry of the per-item cache is never changed by a later call of
    the bulk fetch, the per-item fetch, the many-item fetch or the mount
    effect, whatever the networks answer: only the cache clear removes it. *)
Theorem X2_cache_entries_are_never_overwritten
    (toNumberOther : JSValue -> option Q) (isWellFormed : string -> bool)
    (w w' : World) (id : string) (b : bool) :
  later toNumberOther isWellFormed w w' ->
  snapVerifiedCache w !! id = Some b ->
  snapVerifiedCache w' !! id = Some b.
Proof.
  intros Hl. revert id b. induction Hl as [w|w w1 net c Hl IH]; intros id b Hb.
  - exact Hb.
  - apply perform_keepsEntries. apply IH. exact Hb.
Qed.

Lemma X2_cache_entries_witness :
  snapVerifiedCache
    (snd (run failingNetwork
            (perform noCoercion wellFormedNames (CallFetchAllSnap 3 ["foo"; "bar"])) fooWorld))
    !! "foo" = Some true.
Proof.
  apply (X2_cache_entries_are_never_overwritten noCoercion wellFormedNames fooWorld _
           "foo" true).
  - apply later_call. apply later_now.
  - reflexivity.
Defined.

(** X3. The many-item fetch sends one request for each distinct identifier
    that is not yet cached and whose canonical name is well formed, in the
    order of first occurrence, addressed to its canonical name; identifiers
    already cached, and identifiers whose canonical name cannot be escaped,
    cause no request. *)
Theorem X3_many_item_fetch_asks_for_uncached_only
    (isWellFormed : string -> bool) (net : Network) (w : World) (ids : list string)
    (extra : nat) :
  requests (snd (run net (fetchAllSnapVerifications isWellFormed (length ids + extra) ids) w)) =
  requests w ++
  map (fun p => snapRequest (cleanNameOf p))
      (List.filter (fun p => uncached w p && isWellFormed (cleanNameOf p)) (uniqueOf ids)).
Proof.
  rewrite run_fetchAll. cbn [snd requests with_batches].
  apply snapSteps_requests. apply uniqueOf_NoDup.
Qed.

(** X4. The many-item fetch is idempotent: a second call with the same
    identifiers, against any network, returns the same map, sends no
    request and leaves the per-item cache as it was. *)
Theorem X4_many_item_fetch_twice
    (isWellFormed : string -> bool) (net net' : Network) (w : World) (ids : list string)
    (extra extra' : nat) :
  let first := run net (fetchAllSnapVerifications isWellFormed (length ids + extra) ids) w in
  let second :=
    run net' (fetchAllSnapVerifications isWellFormed (length ids + extra') ids) (snd first) in
  fst second = fst first /\
  requests (snd second) = requests (snd first) /\
  snapVerifiedCache (snd second) = snapVerifiedCache (snd first).
Proof.
  cbv zeta. rewrite (run_fetchAll isWellFormed net w ids extra). cbn [fst snd].
  rewrite (run_fetchAll isWellFormed net' _ ids extra'). cbn [fst snd].
  set (u := uniqueOf ids).
  rewrite snapSteps_with_batches. cbn [fst snd].
  rewrite (snapSteps_all_cached isWellFormed net' u _
             (snapSteps_final_cached isWellFormed net u w)).
  cbn [fst snd]. split; [|split; reflexivity].
  rewrite <- snapSteps_pairs_from_cache. reflexivity.
Qed.

Section HookExtras.

Variable toNumberOther : JSValue -> option Q.
Variable isWellFormed : string -> bool.

(** X5. Whatever the network does, a first mount completes: it ends with
    [isLoading] cleared and both loaded flags set, leaves [hasError] as it
    found it, sends at most ten requests, all to the bulk endpoint, and does
    not touch the per-item cache. *)
Theorem X5_first_mount_always_settles (net : Network) (w : World) (extra : nat) :
  fetchedRef (hook w) = false ->
  exists w' n,
    run net (mountEffect toNumberOther (10 + extra)) w = (Returned tt, w') /\
    hook w' = {| isLoading := false; hasError := hasError (hook w);
                 flathubLoaded := true; snapLoaded := true; fetchedRef := true |} /\
    (n <= 10)%nat /\
    requests w' = requests w ++ pageRequests 1 n /\
    snapVerifiedCache w' = snapVerifiedCache w.
Proof.
  intros Href.
  destruct (run_mountEffect_first toNumberOther net (10 + extra) w Href)
    as (s & w' & n & Hrun & Hhook & _ & Hn & Hreq & Hsnap & _); [lia|].
  exists w', n. repeat (split; [assumption|]). assumption.
Qed.

(** X6. The mount effect is one-shot: once it has run, running it again,
    against any network, returns at once and changes nothing. *)
Theorem X6_mount_effect_runs_once (net net' : Network) (w : World) (extra fuel' : nat) :
  let w1 := snd (run net (mountEffect toNumberOther (10 + extra)) w) in
  run net' (mountEffect toNumberOther fuel') w1 = (Returned tt, w1).
Proof.
  cbv zeta. apply run_mountEffect_mounted.
  destruct (fetchedRef (hook w)) eqn:Href.
  - rewrite (run_mountEffect_mounted toNumberOther net _ w Href). exact Href.
  - destruct (run_mountEffect_first toNumberOther net (10 + extra) w Href)
      as (s & w' & n & Hrun & Hhook & _); [lia|].
    rewrite Hrun. cbn [snd]. rewrite Hhook. reflexivity.
Qed.

(** X7. A hook that mounts when the module already holds the verified set
    (another instance has fetched it) sends no request: it only sets its
    own flags. *)
Theorem X7_mount_reuses_the_module_cache (net : Network) (w : World) (s : SetRef) (fuel : nat) :
  flathubVerifiedCache w = Some s ->
  fetchedRef (hook w) = false ->
  run net (mountEffect toNumberOther fuel) w =
  (Returned tt,
   with_hook {| isLoading := false; hasError := hasError (hook w);
                flathubLoaded := true; snapLoaded := true; fetchedRef := true |} w).
Proof.
  intros Hc Href. unfold mountEffect, read. cbn [bind run]. rewrite Href.
  unfold setFetchedRef, update. cbn [bind run].
  unfold fetchVerificationData. rewrite run_try_finally, run_try_catch, run_bind.
  rewrite (run_fetchFlathub_cached toNumberOther net fuel _ s) by exact Hc.
  reflexivity.
Qed.

(** X8. After a first mount, whatever the network did, every package whose
    canonical name is in the static table is verified for snap, with the
    tag ['snap']. *)
Theorem X8_known_snaps_are_verified_after_mount
    (net : Network) (w : World) (extra : nat) (id : string) :
  fetchedRef (hook w) = false ->
  known_has (cleanNameOf id) = true ->
  let w' := snd (run net (mountEffect toNumberOther (10 + extra)) w) in
  isVerified w' "snap" id = true /\ getVerificationType w' "snap" id = Some "snap".
Proof.
  intros Href Hknown.
  destruct (run_mountEffect_first toNumberOther net (10 + extra) w Href)
    as (s & w' & n & Hrun & Hhook & _); [lia|].
  cbv zeta. rewrite Hrun. cbn [snd].
  unfold isVerified, getVerificationType, isSnapVerified.
  rewrite Hhook, Hknown. split; reflexivity.
Qed.

(** X9. Clearing the caches makes every query answer from the static table
    alone, and makes the next fetch of either kind start afresh: the bulk
    fetch starts by asking for page 1; the per-item fetch starts by asking
    for the canonical name when that name is well formed, and otherwise
    settles at once, with no request, on [false], which it logs and stores.
    The clear leaves the hook state and the request log untouched. *)
Theorem X9_clear_forces_a_fresh_attempt (net : Network) (w : World) (fuel : nat) (id : string) :
  let w' := snd (run net clearVerificationCache w) in
  isFlathubVerified w' id = false /\
  isSnapVerified w' id = known_has (cleanNameOf id) /\
  hook w' = hook w /\
  requests w' = requests w /\
  (exists k, start (fetchFlathubVerifiedApps toNumberOther (S fuel)) w' =
             (Pending (flathubRequest 1) k,
              log_request (flathubRequest 1) (with_heap (heap w' ++ [emptySet]) w'))) /\
  (if isWellFormed (cleanNameOf id)
   then exists k, start (fetchSnapVerification isWellFormed id) w' =
                  (Pending (snapRequest (cleanNameOf id)) k,
                   log_request (snapRequest (cleanNameOf id)) w')
   else start (fetchSnapVerification isWellFormed id) w' =
        (Settled (Returned false), snapFailed id w')).
Proof.
  cbv zeta. cbn [clearVerificationCache update bind run snd].
  split; [reflexivity|]. split.
  { unfold isSnapVerified. cbn [snapVerifiedCache with_snapVerifiedCache].
    rewrite !lookup_empty. destruct (known_has (cleanNameOf id)); reflexivity. }
  split; [reflexivity|]. split; [reflexivity|]. split.
  - eexists. reflexivity.
  - unfold fetchSnapVerification, encodeURIComponent, read. cbn [bind start].
    cbn [snapVerifiedCache with_snapVerifiedCache]. rewrite lookup_empty.
    destruct (isWellFormed (cleanNameOf id)); [eexists|]; reflexivity.
Qed.

(** X10. A mounted hook does not notice a cache clear: after the clear, the
    mount effect still does nothing, so no flatpak package is verified any
    more, although [flathubLoaded] stays set. *)
Theorem X10_mounted_hook_never_refetches_after_clear
    (net net' : Network) (w : World) (fuel : nat) (id : string) :
  fetchedRef (hook w) = true ->
  let w' := snd (run net' (mountEffect toNumberOther fuel)
                   (snd (run net clearVerificationCache w))) in
  requests w' = requests w /\
  flathubLoaded (hook w') = flathubLoaded (hook w) /\
  isVerified w' "flatpak" id = false.
Proof.
  intros Href. cbv zeta.
  rewrite run_mountEffect_mounted by exact Href. cbn [snd].
  cbn [clearVerificationCache update bind run snd].
  split; [reflexivity|]. split; [reflexivity|].
  unfold isVerified, isFlathubVerified. cbn.
  destruct (flathubLoaded (hook w)); reflexivity.
Qed.

End HookExtras.

Lemma X5_first_mount_witness :
  exists w' n,
    run endlessPages (mountEffect noCoercion (10 + 0)) initialWorld = (Returned tt, w') /\
    hook w' = {| isLoading := false; hasError := hasError (hook initialWorld);
                 flathubLoaded := true; snapLoaded := true; fetchedRef := true |} /\
    (n <= 10)%nat /\
    requests w' = requests initialWorld ++ pageRequests 1 n /\
    snapVerifiedCache w' = snapVerifiedCache initialWorld.
Proof.
  apply (X5_first_mount_always_settles noCoercion endlessPages initialWorld 0). reflexivity.
Defined.

Lemma X7_mount_reuses_witness :
  run endlessPages (mountEffect noCoercion 0) (with_hook initialHook degradedWorld) =
  (Returned tt,
   with_hook {| isLoading := false; hasError := false;
                flathubLoaded := true; snapLoaded := true; fetchedRef := true |}
     (with_hook initialHook degradedWorld)).
Proof.
  apply (X7_mount_reuses_the_module_cache noCoercion endlessPages
           (with_hook initialHook degradedWorld) 0%nat 0%nat); reflexivity.
Defined.

Lemma X8_known_snaps_witness :
  let w' := snd (run failingNetwork (mountEffect noCoercion (10 + 0)) initialWorld) in
  isVerified w' "snap" "code --classic" = true /\
  getVerificationType w' "snap" "code --classic" = Some "snap".
Proof.
  apply (X8_known_snaps_are_verified_after_mount noCoercion failingNetwork initialWorld
           0 "code --classic"); reflexivity.
Defined.

Lemma X10_mounted_hook_witness :
  let w' := snd (run endlessPages (mountEffect noCoercion 10)
                   (snd (run endlessPages clearVerificationCache degradedWorld))) in
  requests w' = requests degradedWorld /\
  flathubLoaded (hook w') = flathubLoaded (hook degradedWorld) /\
  isVerified w' "flatpak" "org.example.App" = false.
Proof.
  apply (X10_mounted_hook_never_refetches_after_clear noCoercion endlessPages endlessPages
           degradedWorld 10 "org.example.App"). reflexivity.
Defined.

(** ** The bulk fetch against a catalogue *)

Lemma forHits_cons (net : Network) (s : SetRef) (h : JSValue) (rest : list JSValue) (w : World) :
  nullish h = false ->
  run net (forHits s (h :: rest)) w =
  run net (forHits s rest)
    match hitMember h with
    | Some v => with_heap (alter (js_add v) s (heap w)) w
    | None => w
    end.
Proof.
  intros Hn. destruct h as [| |b|q|x|items|fields]; try discriminate Hn; try reflexivity.
  cbn [forHits get_prop hitMember bind].
  destruct (truthy (field "verification_verified" fields)) eqn:Hv; cbn [bind andb];
    [|rewrite Hv; reflexivity].
  destruct (truthy (field "app_id" fields)); reflexivity.
Qed.

Lemma run_forHits_tolerant (net : Network) (s : SetRef) (hits : list JSValue) :
  forall (w : World) (S : JsSet),
  Forall (fun h => nullish h = false) hits ->
  heap w !! s = Some S ->
  exists w',
    run net (forHits s hits) w = (Returned tt, w') /\
    heap w' !! s = Some (addHits hits S) /\
    quiet s w w'.
Proof.
  induction hits as [|h rest IH]; intros w S Hall Hs.
  - exists w. split; [reflexivity|]. split; [exact Hs | apply quiet_refl].
  - apply Forall_cons in Hall as [Hh Hrest].
    rewrite (forHits_cons net s h rest w Hh).
    change (addHits (h :: rest) S) with (addHits rest (addHit S h)).
    unfold addHit. destruct (hitMember h) as [v|].
    + set (w1 := with_heap _ w).
      assert (Hs1 : heap w1 !! s = Some (js_add v S)).
      { subst w1. cbn [heap with_heap]. rewrite list_lookup_alter_eq.
        unfold SetRef in *. rewrite Hs. reflexivity. }
      destruct (IH w1 (js_add v S) Hrest Hs1) as (w' & Hrun & Hw' & Hq).
      exists w'. split; [exact Hrun|]. split; [exact Hw'|].
      eapply quiet_trans; [|exact Hq].
      split; [|reflexivity]. unfold frame. subst w1. cbn [heap with_heap].
      do 4 (split; [reflexivity|]). split; [apply length_alter|].
      intros l Hl. apply list_lookup_alter_ne. congruence.
    + exact (IH w S Hrest Hs).
Qed.

Lemma strings_addHit (members : JsSet) (h : JSValue) :
  strings (addHit members h) =
  match hitId h with
  | Some x => {[x]} ∪ strings members
  | None => strings members
  end.
Proof.
  unfold addHit, hitMember, hitId. destruct h as [| |b|q|x|items|fields]; try reflexivity.
  destruct (truthy (field "verification_verified" fields)); cbn [andb]; [|reflexivity].
  destruct (field "app_id" fields) as [| |b|q|x|items|fields']; cbn [truthy];
    try reflexivity.
  - destruct b; [|reflexivity]. unfold js_add. destruct (existsb _ _); reflexivity.
  - destruct (negb (Qeq_bool q 0)); [|reflexivity].
    unfold js_add. destruct (existsb _ _); reflexivity.
  - destruct (String.eqb x ""); reflexivity.
  - unfold js_add. destruct (existsb _ _); reflexivity.
  - unfold js_add. destruct (existsb _ _); reflexivity.
Qed.

Lemma strings_addHits (hits : list JSValue) : forall members : JsSet,
  strings (addHits hits members) = idsOf hits ∪ strings members.
Proof.
  induction hits as [|h rest IH]; intros members.
  - change (idsOf []) with (∅ : gset string). rewrite (left_id_L ∅ (∪)). reflexivity.
  - change (addHits (h :: rest) members) with (addHits rest (addHit members h)).
    rewrite IH, strings_addHit. unfold idsOf.
    change (omap hitId (h :: rest))
      with (match hitId h with Some y => y :: omap hitId rest | None => omap hitId rest end).
    destruct (hitId h) as [x|]; [|reflexivity].
    rewrite list_to_set_cons.
    rewrite (comm_L (∪) {[x]} (list_to_set _)), <- (assoc_L (∪)). reflexivity.
Qed.

Lemma hitOf_not_nullish (l : list (string * bool)) :
  Forall (fun h => nullish h = false) (map hitOf l).
Proof. apply Forall_forall. intros h Hh. apply list_elem_of_fmap in Hh as (e & -> & _). reflexivity. Qed.

Lemma elem_of_idsOf_hitOf (l : list (string * bool)) (x : string) :
  x ∈ idsOf (map hitOf l) <-> (x, true) ∈ l /\ x <> "".
Proof.
  unfold idsOf. rewrite elem_of_list_to_set, list_elem_of_omap. split.
  - intros (h & Hh & Hid). apply list_elem_of_fmap in Hh as ([y v] & -> & Hin).
    unfold hitOf, hit, hitId in Hid. cbn in Hid.
    destruct v; [|discriminate].
    destruct (String.eqb_spec y "") as [->|Hne]; [discriminate|].
    injection Hid as ->. split; assumption.
  - intros [Hin Hne]. exists (hitOf (x, true)). split.
    + apply list_elem_of_fmap. exists (x, true). split; [reflexivity | exact Hin].
    + unfold hitOf, hit, hitId. cbn.
      destruct (String.eqb_spec x "") as [->|_]; [contradiction | reflexivity].
Qed.

Lemma js_lt_number (toNumberOther : JSValue -> option Q) (page total : Z) :
  js_lt toNumberOther page (JNum (inject_Z total)) = (page <? total).
Proof.
  unfold js_lt, toNumber, Qle_bool, inject_Z. cbn [Qnum Qden].
  rewrite !Z.mul_1_r. destruct (Z.leb_spec total page), (Z.ltb_spec page total);
    try reflexivity; lia.
Qed.

Lemma verifiedOn_S (content : Z -> list (string * bool)) (first : Z) (n : nat) :
  verifiedOn content first (S n) =
  idsOf (map hitOf (content first)) ∪ verifiedOn content (first + 1) n.
Proof.
  unfold verifiedOn. cbn [seq map]. rewrite Z.add_0_r.
  rewrite <- seq_shift, map_map.
  change (⋃ (?x :: ?l)) with (x ∪ ⋃ l).
  f_equal. f_equal. apply map_ext. intros i. do 3 f_equal. lia.
Qed.

Lemma elem_of_verifiedOn (content : Z -> list (string * bool)) (first : Z) (n : nat) (x : string) :
  x ∈ verifiedOn content first n <->
  x <> "" /\ exists p, first <= p < first + Z.of_nat n /\ (x, true) ∈ content p.
Proof.
  revert first. induction n as [|n IH]; intros first.
  - unfold verifiedOn. cbn. rewrite elem_of_empty. split; [contradiction|].
    intros (_ & p & Hp & _). lia.
  - rewrite verifiedOn_S, elem_of_union, elem_of_idsOf_hitOf, IH. split.
    + intros [[Hin Hne]|(Hne & p & Hp & Hin)].
      * split; [exact Hne|]. exists first. split; [lia | exact Hin].
      * split; [exact Hne|]. exists p. split; [lia | exact Hin].
    + intros (Hne & p & Hp & Hin).
      destruct (Z.eq_dec p first) as [->|Hd].
      * left. split; assumption.
      * right. split; [exact Hne|]. exists p. split; [lia | exact Hin].
Qed.

Section Catalogue.

Variable toNumberOther : JSValue -> option Q.
Variable content : Z -> list (string * bool).
Variables total down : Z.

Lemma catalogue_page (history : list Request) (page : Z) :
  catalogue content total down history (flathubRequest page) =
  if page <? down
  then Responded {| status := 200; body := Some (pageOf (map hitOf (content page)) total) |}
  else Responded serverError.
Proof. reflexivity. Qed.

Lemma run_pagesLoop_catalogue (s : SetRef) :
  forall (fuel : nat) (page : Z) (w : World) (S : JsSet),
  1 <= page <= 10 ->
  page <= down ->
  (Z.to_nat (11 - page) <= fuel)%nat ->
  heap w !! s = Some S ->
  exists w' S',
    run (catalogue content total down) (pagesLoop toNumberOther fuel s page true) w
      = (Returned tt, w') /\
    requests w' =
      requests w ++
      pageRequests page (Z.to_nat (Z.min down (Z.min (Z.max total page) 10) - page + 1)) /\
    heap w' !! s = Some S' /\
    strings S' =
      verifiedOn content page
        (Z.to_nat (Z.min (down - 1) (Z.min (Z.max total page) 10) - page + 1)) ∪ strings S /\
    frame s w w'.
Proof.
  induction fuel as [|fuel IH]; intros page w S Hp Hd Hf Hs; [exfalso; lia|].
  assert (Hone : verifiedOn content page 1 = idsOf (map hitOf (content page))).
  { rewrite verifiedOn_S. unfold verifiedOn. cbn [seq map].
    change (⋃ []) with (∅ : gset string). apply (right_id_L ∅ (∪)). }
  cbn [pagesLoop]. rewrite run_bind. cbn [fetch run].
  rewrite catalogue_page.
  destruct (Z.ltb_spec page down) as [Hlt|Hge].
  - cbn [run]. change (ok _) with true. cbn [negb].
    rewrite run_bind. cbn [json body run]. rewrite run_bind.
    change (get_prop (pageOf (map hitOf (content page)) total) "hits")
      with (@Ret JSValue (JArr (map hitOf (content page)))).
    cbn [run]. rewrite run_bind. cbn [iterate run]. rewrite run_bind.
    set (w1 := log_request (flathubRequest page) w).
    destruct (run_forHits_tolerant (catalogue content total down) s
                (map hitOf (content page)) w1 S (hitOf_not_nullish _) Hs)
      as (w2 & Hrun & Hs2 & Hfr2 & Hrq2).
    rewrite Hrun. rewrite run_bind.
    change (get_prop (pageOf (map hitOf (content page)) total) "totalPages")
      with (@Ret JSValue (JNum (inject_Z total))).
    cbn [run]. cbv zeta. rewrite js_lt_number.
    assert (Hreq2 : requests w2 = requests w ++ [flathubRequest page]) by (rewrite Hrq2; reflexivity).
    assert (Hfr : frame s w w2).
    { eapply frame_trans; [apply frame_log_request | exact Hfr2]. }
    pose proof (strings_addHits (map hitOf (content page)) S) as Hstr2.
    set (S2 := addHits (map hitOf (content page)) S) in *. clearbody S2.
    destruct (page + 1 >? 10) eqn:Hgt.
    + exists w2, S2. split; [reflexivity|].
      replace (Z.to_nat (Z.min down (Z.min (Z.max total page) 10) - page + 1)) with 1%nat by lia.
      replace (Z.to_nat (Z.min (down - 1) (Z.min (Z.max total page) 10) - page + 1))
        with 1%nat by lia.
      rewrite pageRequests_S. cbn [pageRequests seq map].
      split; [exact Hreq2|]. split; [exact Hs2|]. split; [|exact Hfr].
      rewrite Hone. exact Hstr2.
    + destruct (Z.ltb_spec page total) as [Hmore|Hlast].
      * destruct (IH (page + 1) w2 S2 ltac:(lia) ltac:(lia) ltac:(lia) Hs2)
          as (w' & S' & Hrun' & Hreq' & Hs' & Hstr' & Hfr').
        exists w', S'. split; [exact Hrun'|].
        replace (Z.to_nat (Z.min down (Z.min (Z.max total page) 10) - page + 1))
          with (Datatypes.S (Z.to_nat (Z.min down (Z.min (Z.max total (page + 1)) 10) - (page + 1) + 1)))
          by lia.
        replace (Z.to_nat (Z.min (down - 1) (Z.min (Z.max total page) 10) - page + 1))
          with (Datatypes.S (Z.to_nat (Z.min (down - 1) (Z.min (Z.max total (page + 1)) 10) - (page + 1) + 1)))
          by lia.
        rewrite pageRequests_S, verifiedOn_S.
        split; [rewrite Hreq', Hreq2, <- app_assoc; reflexivity|].
        split; [exact Hs'|]. split; [|eapply frame_trans; eassumption].
        rewrite Hstr', Hstr2.
        rewrite (comm_L (∪) (idsOf _) (verifiedOn _ _ _)), <- (assoc_L (∪)). reflexivity.
      * exists w2, S2. split; [destruct fuel; reflexivity|].
        replace (Z.to_nat (Z.min down (Z.min (Z.max total page) 10) - page + 1)) with 1%nat by lia.
        replace (Z.to_nat (Z.min (down - 1) (Z.min (Z.max total page) 10) - page + 1))
          with 1%nat by lia.
        rewrite pageRequests_S. cbn [pageRequests seq map].
        split; [exact Hreq2|]. split; [exact Hs2|]. split; [|exact Hfr].
        rewrite Hone. exact Hstr2.
  - cbn [run]. change (ok serverError) with false. cbn [negb].
    eexists _, S. split; [reflexivity|].
    replace (Z.to_nat (Z.min down (Z.min (Z.max total page) 10) - page + 1)) with 1%nat by lia.
    replace (Z.to_nat (Z.min (down - 1) (Z.min (Z.max total page) 10) - page + 1))
      with 0%nat by lia.
    rewrite pageRequests_S. cbn [pageRequests seq map].
    split; [reflexivity|]. split; [exact Hs|]. split.
    + unfold verifiedOn. cbn [seq map].
      change (⋃ []) with (∅ : gset string). rewrite (left_id_L ∅ (∪)). reflexivity.
    + unfold frame. cbn. auto 10.
Qed.

End Catalogue.

Lemma fetchFlathub_catalogue
    (toNumberOther : JSValue -> option Q) (content : Z -> list (string * bool))
    (total down : Z) (w : World) (extra : nat) :
  flathubVerifiedCache w = None ->
  1 <= down ->
  exists w',
    run (catalogue content total down) (fetchFlathubVerifiedApps toNumberOther (10 + extra)) w
      = (Returned (length (heap w)), w') /\
    flathubVerifiedCache w' = Some (length (heap w)) /\
    requests w' =
      requests w ++ pageRequests 1 (Z.to_nat (Z.min down (Z.min (Z.max total 1) 10))) /\
    forall id,
      isFlathubVerified w' id = true <->
      id <> "" /\
      exists p, 1 <= p <= Z.min (down - 1) (Z.min (Z.max total 1) 10) /\ (id, true) ∈ content p.
Proof.
  intros Hc Hd. rewrite run_fetchFlathub_fresh by exact Hc.
  assert (Hs : heap (allocated w) !! length (heap w) = Some emptySet).
  { unfold allocated. cbn [heap with_heap].
    rewrite lookup_app_r by reflexivity. rewrite Nat.sub_diag. reflexivity. }
  destruct (run_pagesLoop_catalogue toNumberOther content total down (length (heap w))
              (10 + extra) 1 (allocated w) emptySet ltac:(lia) Hd ltac:(lia) Hs)
    as (w1 & S1 & Hrun & Hreq & Hs1 & Hstr & Hfr).
  rewrite Hrun. eexists. split; [reflexivity|]. split; [reflexivity|]. split.
  - cbn [requests with_flathubVerifiedCache]. rewrite Hreq. cbn [requests allocated with_heap].
    do 2 f_equal. lia.
  - intros id. unfold isFlathubVerified, set_has.
    cbn [flathubVerifiedCache heap with_flathubVerifiedCache].
    unfold SetRef in *. rewrite Hs1. rewrite bool_decide_eq_true, Hstr.
    cbn [strings emptySet]. rewrite (right_id_L ∅ (∪)), elem_of_verifiedOn.
    split; intros (Hne & p & Hp & Hin); (split; [exact Hne|]); exists p; (split; [lia | exact Hin]).
Qed.

(** X11. Against a bulk endpoint that serves [total] pages, a bulk fetch
    that starts with the cache unset asks for pages 1 to
    min(max(total, 1), 10), and afterwards [isFlathubVerified] holds exactly
    of the non-empty identifiers flagged verified on those pages; pages
    beyond the tenth are never read. *)
Theorem X11_bulk_fetch_collects_the_verified_ids
    (toNumberOther : JSValue -> option Q) (content : Z -> list (string * bool))
    (total down : Z) (w : World) (extra : nat) :
  flathubVerifiedCache w = None ->
  10 < down ->
  exists s w',
    run (catalogue content total down) (fetchFlathubVerifiedApps toNumberOther (10 + extra)) w
      = (Returned s, w') /\
    flathubVerifiedCache w' = Some s /\
    requests w' = requests w ++ pageRequests 1 (Z.to_nat (Z.min (Z.max total 1) 10)) /\
    forall id,
      isFlathubVerified w' id = true <->
      id <> "" /\ exists p, 1 <= p <= Z.min (Z.max total 1) 10 /\ (id, true) ∈ content p.
Proof.
  intros Hc Hd.
  destruct (fetchFlathub_catalogue toNumberOther content total down w extra Hc ltac:(lia))
    as (w' & Hrun & Hcache & Hreq & Hids).
  exists (length (heap w)), w'. split; [exact Hrun|]. split; [exact Hcache|]. split.
  - rewrite Hreq. do 2 f_equal. lia.
  - intros id. rewrite Hids.
    split; intros (Hne & p & Hp & Hin); (split; [exact Hne|]); exists p; (split; [lia | exact Hin]).
Qed.

(** X12. When the bulk endpoint serves pages 1 to k-1 and answers page k
    with a non-success status, page k being one the traversal reaches, the
    bulk fetch still returns: it has asked for pages 1 to k and no further,
    and the set it caches holds exactly the verified identifiers of pages 1
    to k-1. *)
Theorem X12_bulk_fetch_keeps_what_it_gathered
    (toNumberOther : JSValue -> option Q) (content : Z -> list (string * bool))
    (total k : Z) (w : World) (extra : nat) :
  flathubVerifiedCache w = None ->
  1 <= k <= Z.min (Z.max total 1) 10 ->
  exists s w',
    run (catalogue content total k) (fetchFlathubVerifiedApps toNumberOther (10 + extra)) w
      = (Returned s, w') /\
    flathubVerifiedCache w' = Some s /\
    requests w' = requests w ++ pageRequests 1 (Z.to_nat k) /\
    forall id,
      isFlathubVerified w' id = true <->
      id <> "" /\ exists p, 1 <= p <= k - 1 /\ (id, true) ∈ content p.
Proof.
  intros Hc Hk.
  destruct (fetchFlathub_catalogue toNumberOther content total k w extra Hc ltac:(lia))
    as (w' & Hrun & Hcache & Hreq & Hids).
  exists (length (heap w)), w'. split; [exact Hrun|]. split; [exact Hcache|]. split.
  - rewrite Hreq. do 2 f_equal. lia.
  - intros id. rewrite Hids.
    split; intros (Hne & p & Hp & Hin); (split; [exact Hne|]); exists p; (split; [lia | exact Hin]).
Qed.

(** X13. The loop over the hits of a page tolerates every hit that is not
    null: it does not throw, and it adds to the set the [app_id], of
    whatever type, of each hit whose [verification_verified] and [app_id]
    are both truthy, and nothing else; a hit that lacks either field is
    skipped. The strings it adds are exactly the [app_id]s that are
    non-empty strings, of the hits whose [verification_verified] is truthy. *)
Theorem X13_hits_without_fields_are_skipped
    (net : Network) (s : SetRef) (hits : list JSValue) (w : World) (S : JsSet) :
  Forall (fun h => nullish h = false) hits ->
  heap w !! s = Some S ->
  exists w',
    run net (forHits s hits) w = (Returned tt, w') /\
    heap w' !! s = Some (addHits hits S) /\
    strings (addHits hits S) = idsOf hits ∪ strings S /\
    requests w' = requests w /\
    flathubVerifiedCache w' = flathubVerifiedCache w.
Proof.
  intros Hall Hs.
  destruct (run_forHits_tolerant net s hits w S Hall Hs)
    as (w' & Hrun & Hs' & (Hc & _) & Hreq).
  exists w'. split; [exact Hrun|]. split; [exact Hs'|].
  split; [apply strings_addHits|]. split; assumption.
Qed.

Lemma X11_bulk_fetch_witness :
  exists s w',
    run (catalogue (fun p => [("org.a", true); ("org.b", false)]) 3 11)
        (fetchFlathubVerifiedApps noCoercion (10 + 0)) initialWorld
      = (Returned s, w') /\
    flathubVerifiedCache w' = Some s /\
    requests w' = requests initialWorld ++ pageRequests 1 (Z.to_nat (Z.min (Z.max 3 1) 10)) /\
    forall id,
      isFlathubVerified w' id = true <->
      id <> "" /\
      exists p, 1 <= p <= Z.min (Z.max 3 1) 10 /\
                (id, true) ∈ (fun _ : Z => [("org.a", true); ("org.b", false)]) p.
Proof.
  apply (X11_bulk_fetch_collects_the_verified_ids noCoercion
           (fun p => [("org.a", true); ("org.b", false)]) 3 11 initialWorld 0);
    [reflexivity | lia].
Defined.

Lemma X12_bulk_fetch_witness :
  exists s w',
    run (catalogue (fun p => [("org.a", true); ("org.b", false)]) 5 3)
        (fetchFlathubVerifiedApps noCoercion (10 + 0)) initialWorld
      = (Returned s, w') /\
    flathubVerifiedCache w' = Some s /\
    requests w' = requests initialWorld ++ pageRequests 1 (Z.to_nat 3) /\
    forall id,
      isFlathubVerified w' id = true <->
      id <> "" /\
      exists p, 1 <= p <= 3 - 1 /\
                (id, true) ∈ (fun _ : Z => [("org.a", true); ("org.b", false)]) p.
Proof.
  apply (X12_bulk_fetch_keeps_what_it_gathered noCoercion
           (fun p => [("org.a", true); ("org.b", false)]) 5 3 initialWorld 0);
    [reflexivity | lia].
Defined.

Lemma X13_hits_witness :
  exists w',
    run failingNetwork
        (forHits 0%nat [hit "org.a" true; JObj [("app_id", JStr "org.c")]; JStr "x"; JObj [];
                        JObj [("app_id", JNum 7%Q); ("verification_verified", JBool true)]])
        (allocated initialWorld)
      = (Returned tt, w') /\
    heap w' !! 0%nat =
      Some (addHits [hit "org.a" true; JObj [("app_id", JStr "org.c")]; JStr "x"; JObj [];
                     JObj [("app_id", JNum 7%Q); ("verification_verified", JBool true)]]
              emptySet) /\
    strings (addHits [hit "org.a" true; JObj [("app_id", JStr "org.c")]; JStr "x"; JObj [];
                      JObj [("app_id", JNum 7%Q); ("verification_verified", JBool true)]]
               emptySet) =
      idsOf [hit "org.a" true; JObj [("app_id", JStr "org.c")]; JStr "x"; JObj [];
             JObj [("app_id", JNum 7%Q); ("verification_verified", JBool true)]]
      ∪ strings emptySet /\
    requests w' = requests (allocated initialWorld) /\
    flathubVerifiedCache w' = flathubVerifiedCache (allocated initialWorld).
Proof.
  apply (X13_hits_without_fields_are_skipped failingNetwork 0%nat
           [hit "org.a" true; JObj [("app_id", JStr "org.c")]; JStr "x"; JObj [];
            JObj [("app_id", JNum 7%Q); ("verification_verified", JBool true)]]
           (allocated initialWorld) emptySet).
  - repeat constructor.
  - reflexivity.
Defined.

(** X13, a payload of another type: a numeric [app_id] is kept by the set,
    once, next to the strings; [has] of a string does not see it. *)
Lemma X13_numeric_app_id_is_kept :
  let odd := JObj [("app_id", JNum 5%Q); ("verification_verified", JBool true)] in
  let r := run failingNetwork (forHits 0%nat [hit "org.a" true; odd; odd])
             (allocated initialWorld) in
  fst r = Returned tt /\
  (others <$> heap (snd r) !! 0%nat) = Some [JNum 5%Q] /\
  (elements <$> (strings <$> heap (snd r) !! 0%nat)) = Some ["org.a"] /\
  set_has (snd r) 0%nat "org.a" = true /\
  set_has (snd r) 0%nat "5" = false.
Proof. vm_compute. repeat split; reflexivity. Qed.



(** X15. When the canonical name is well formed and the per-item endpoint
    answers with a success status and a payload of the shape
    [{ snap: { publisher: { ... } } }], the verdict is [true] exactly when
    [validation] is the string ['verified']; it is stored under the
    identifier as given, and nothing is logged. *)
Theorem X15_verdict_reads_the_validation_field
    (isWellFormed : string -> bool) (net : Network) (w : World) (id : string) (r : Response)
    (top snap publisher : list (string * JSValue)) :
  snapVerifiedCache w !! id = None ->
  isWellFormed (cleanNameOf id) = true ->
  net (requests w) (snapRequest (cleanNameOf id)) = Responded r ->
  ok r = true ->
  body r = Some (JObj top) ->
  field "snap" top = JObj snap ->
  field "publisher" snap = JObj publisher ->
  exists b w',
    run net (fetchSnapVerification isWellFormed id) w = (Returned b, w') /\
    (b = true <-> field "validation" publisher = JStr "verified") /\
    snapVerifiedCache w' = <[id := b]> (snapVerifiedCache w) /\
    console w' = console w.
Proof.
  intros Hc Hwf Hnet Hok Hbody Hsnap Hpub.
  rewrite run_fetchSnapVerification. unfold snapStep. rewrite Hc, Hwf, Hnet.
  unfold snapVerdict, snapThrows. rewrite Hok, Hbody, Hsnap, Hpub. cbn [andb fst snd].
  eexists _, _. split; [reflexivity|]. split; [|split; reflexivity].
  unfold strict_eq_string. destruct (field "validation" publisher) as [| |b|q|x|items|fields];
    try (split; discriminate).
  rewrite String.eqb_eq. split; [intros ->; reflexivity | intros H; injection H as ->; reflexivity].
Qed.

Lemma X15_verdict_witness :
  exists b w',
    run snapStore (fetchSnapVerification allButBad "foo --classic") initialWorld
      = (Returned b, w') /\
    (b = true <->
     field "validation"
       [("validation", JStr "verified"); ("display-name", JStr "Publisher");
        ("username", JStr "publisher")] = JStr "verified") /\
    snapVerifiedCache w' = <["foo --classic" := b]> (snapVerifiedCache initialWorld) /\
    console w' = console initialWorld.
Proof.
  eapply (X15_verdict_reads_the_validation_field allButBad snapStore initialWorld
            "foo --classic"); reflexivity.
Defined.

(** X16. The canonical name, [snapName.split(' ')[0]], contains no space,
    is a prefix of the name it comes from, and is its own canonical name. *)
Theorem X16_canonical_name (snapName : string) :
  includes (cleanNameOf snapName) " " = false /\
  String.prefix (cleanNameOf snapName) snapName = true /\
  cleanNameOf (cleanNameOf snapName) = cleanNameOf snapName.
Proof.
  assert (H1 : includes (cleanNameOf snapName) " " = false).
  { induction snapName as [|c s IH]; [reflexivity|].
    cbn [cleanNameOf]. destruct (Ascii.eqb_spec c " ") as [->|Hne]; [reflexivity|].
    cbn [includes]. rewrite IH, orb_false_r. cbn [String.prefix].
    destruct (ascii_dec " " c) as [Heq|_]; [congruence | reflexivity]. }
  split; [exact H1|]. split; [|apply cleanNameOf_plain; exact H1].
  clear H1. induction snapName as [|c s IH]; [reflexivity|].
  cbn [cleanNameOf]. destruct (Ascii.eqb c " "); [reflexivity|].
  cbn [String.prefix]. destruct (ascii_dec c c); [exact IH | contradiction].
Qed.

(** X17. A list of identifiers without duplicates goes through the
    de-duplication of the many-item fetch unchanged, order included. *)
Theorem X17_deduplication_keeps_distinct_lists (snapPackages : list string) :
  NoDup snapPackages -> uniqueOf snapPackages = snapPackages.
Proof.
  assert (Hfold : forall l seen : list string,
            NoDup (seen ++ l) ->
            fold_left (fun seen x => if bool_decide (x ∈ seen) then seen else seen ++ [x]) l seen
            = seen ++ l).
  { induction l as [|y l IH]; intros seen Hnd; cbn [fold_left].
    - rewrite app_nil_r. reflexivity.
    - assert (Hy : y ∉ seen).
      { apply NoDup_app in Hnd as (_ & Hdis & _). intros Hin.
        apply (Hdis y Hin). apply elem_of_cons. left. reflexivity. }
      rewrite bool_decide_eq_false_2 by exact Hy.
      assert (Hnd' : NoDup ((seen ++ [y]) ++ l)) by (rewrite <- app_assoc; exact Hnd).
      rewrite (IH _ Hnd'), <- app_assoc. reflexivity. }
  intros Hnd. apply (Hfold snapPackages []). exact Hnd.
Qed.

Lemma X17_deduplication_witness : uniqueOf twelve = twelve.
Proof.
  apply (X17_deduplication_keeps_distinct_lists twelve).
  apply (bool_decide_unpack (NoDup _)). vm_compute. exact I.
Defined.

(** ** The Nix configuration *)

Lemma prefix_of_appended (a x y : string) :
  String.prefix a (String.append (String.append a x) y) = true.
Proof.
  induction a as [|c a IH].
  - change (String.append (String.append "" x) y) with (String.append x y).
    destruct (String.append x y); reflexivity.
  - change (String.append (String.append (String c a) x) y)
      with (String c (String.append (String.append a x) y)).
    cbn [String.prefix]. destruct (ascii_dec c c); [exact IH | contradiction].
Qed.

Section NixConfigProperties.

Variable PackageInfo : Type.
Variable pkg : PackageInfo -> string.
Variable trim : string -> string.
Variable toLowerCase : string -> string.
Variable sort : list string -> list string.

(** X18. When every selected package has a name that trims to the empty
    string, in particular when nothing is selected, the generator returns
    the placeholder comment and no package list. *)
Theorem X18_blank_selection_yields_the_placeholder (packages : list PackageInfo) :
  Forall (fun p => trim (pkg p) = "") packages ->
  generateNixConfig PackageInfo pkg trim toLowerCase sort packages = "# No packages selected".
Proof.
  intros Hall. unfold generateNixConfig.
  assert (Hnone : List.filter (fun p => negb (String.eqb (trim (pkg p)) "")) packages = []).
  { induction Hall as [|p l Hp _ IH]; [reflexivity|].
    cbn [List.filter]. rewrite Hp. exact IH. }
  rewrite Hnone. reflexivity.
Qed.

(** [sort] returns its argument rearranged. *)
Hypothesis sort_permutes : forall l : list string, Permutation (sort l) l.

(** X19. The generated text starts with the ["# Unfree: "] warning exactly
    when some selected package, its name trimmed and not empty, is unfree
    according to [isUnfreePackage]. *)
Theorem X19_unfree_warning_iff_needed (packages : list PackageInfo) :
  String.prefix "# Unfree: "
    (generateNixConfig PackageInfo pkg trim toLowerCase sort packages) = true
  <->
  exists p,
    In p packages /\ trim (pkg p) <> "" /\
    isUnfreePackage trim toLowerCase (trim (pkg p)) = true.
Proof.
  unfold generateNixConfig.
  set (valid := List.filter (fun p => negb (String.eqb (trim (pkg p)) "")) packages).
  assert (Hvalid : forall p, In p valid <-> In p packages /\ trim (pkg p) <> "").
  { intros p. unfold valid. rewrite List.filter_In.
    destruct (String.eqb_spec (trim (pkg p)) ""); cbn [negb];
      intuition (congruence || discriminate). }
  set (sorted := sort (map (fun p => trim (pkg p)) valid)).
  assert (Hsorted : forall x, In x sorted <-> exists p, In p valid /\ trim (pkg p) = x).
  { intros x. unfold sorted. split.
    - intros Hin. apply (Permutation_in _ (sort_permutes _)) in Hin.
      apply in_map_iff in Hin as (p & Hp & Hin). exists p. split; assumption.
    - intros (p & Hin & Hp).
      apply (Permutation_in _ (Permutation_sym (sort_permutes _))).
      apply in_map_iff. exists p. split; assumption. }
  assert (Hunfree : forall x, In x (List.filter (isUnfreePackage trim toLowerCase) sorted) <->
                              exists p, In p packages /\ trim (pkg p) <> "" /\
                                        trim (pkg p) = x /\
                                        isUnfreePackage trim toLowerCase x = true).
  { intros x. rewrite List.filter_In, Hsorted. split.
    - intros [(p & Hin & Hp) Hx]. apply Hvalid in Hin as [Hin Hne]. exists p. auto.
    - intros (p & Hin & Hne & Hp & Hx). split; [|exact Hx].
      exists p. split; [apply Hvalid; auto | exact Hp]. }
  destruct valid as [|v valid'] eqn:Hv.
  - cbn. split; [discriminate|]. intros (p & Hin & Hne & _).
    assert (Hp : In p []) by (apply Hvalid; auto). destruct Hp.
  - cbn [length Nat.eqb].
    destruct (List.filter (isUnfreePackage trim toLowerCase) sorted) as [|x unfree] eqn:Hf.
    + cbn. split; [discriminate|]. intros (p & Hin & Hne & Hx).
      assert (Hp : In (trim (pkg p)) []) by (apply Hunfree; exists p; auto).
      destruct Hp.
    + cbn [length Nat.ltb Nat.leb]. split; [intros _ | intros _; apply prefix_of_appended].
      assert (Hx : In x (x :: unfree)) by (left; reflexivity).
      apply Hunfree in Hx as (p & Hin & Hne & Hp & Hx). exists p.
      rewrite Hp in *. split; [exact Hin|]. split; [exact Hne | exact Hx].
Qed.

End NixConfigProperties.

Lemma X18_blank_selection_witness :
  generateNixConfig string (fun p => p) (fun s => s) (fun s => s) (fun l => l) [""; ""]
  = "# No packages selected".
Proof.
  apply (X18_blank_selection_yields_the_placeholder string (fun p => p) (fun s => s)
           (fun s => s) (fun l => l) [""; ""]).
  repeat constructor.
Defined.

Lemma X19_unfree_warning_witness :
  String.prefix "# Unfree: "
    (generateNixConfig string (fun p => p) (fun s => s) (fun s => s) (fun l => l)
       ["git"; "steam"]) = true
  <->
  exists p,
    In p ["git"; "steam"] /\ p <> "" /\
    isUnfreePackage (fun s => s) (fun s => s) p = true.
Proof.
  apply (X19_unfree_warning_iff_needed string (fun p => p) (fun s => s) (fun s => s)
           (fun l => l)).
  intros l. apply Permutation_refl.
Defined.

(** X20. [isUnfreePackage] answers [true] exactly when the trimmed,
    lower-cased name contains an entry of [KNOWN_UNFREE_PACKAGES]; the
    exact-match test that precedes the containment loop adds nothing to it. *)
Theorem X20_unfree_is_containment (trim toLowerCase : string -> string) (pkg : string) :
  isUnfreePackage trim toLowerCase pkg = true <->
  exists unfree,
    In unfree KNOWN_UNFREE_PACKAGES /\ includes (toLowerCase (trim pkg)) unfree = true.
Proof.
  unfold isUnfreePackage. generalize (toLowerCase (trim pkg)). intros cleanPkg.
  destruct (existsb (String.eqb cleanPkg) KNOWN_UNFREE_PACKAGES) eqn:Hexact.
  - split; [intros _ | reflexivity].
    apply existsb_exists in Hexact as (entry & Hentry & Heq).
    apply String.eqb_eq in Heq. subst entry.
    exists cleanPkg. split; [exact Hentry | apply includes_same].
  - apply existsb_exists.
Qed.
